(** * StockMarket: the Global Beverage Corporation Exchange

    A shallow embedding of [stockmarket.py] (class [StockMarket]) and the
    properties of its operations.

    Modelling conventions.
    - A Python number is an [int] of any size ([PyInt], a [Z]) or a [float]
      ([PyFloat], an IEEE-754 binary64 value, [PrimFloat.float]).  Arithmetic
      on two ints is exact; arithmetic on an int and a float first converts
      the int, which raises [OverflowError] when the int is too large; the
      true division of two ints is rounded once, and raises [OverflowError]
      when the quotient is too large.
    - A method is a computation in the monad [M]: it reads and updates the
      object ([trades]), may read the wall clock, and either returns a value
      or raises an exception.
    - [datetime.datetime.now()] is a reading of the wall clock as a naive
      local date and time, counted in microseconds; the k-th reading of a run
      is [wall_clock k].  [timedelta(minutes=5)] is 300 000 000
      microseconds.  [.timestamp()] turns a naive local date and time into
      the time since the epoch, here in microseconds ([to_timestamp]); what
      it does around a change of the local time offset is the runtime's.
    - A Python [dict] is an association list in insertion order with
      pairwise distinct keys. *)

From Stdlib Require Import ZArith List String Bool Lia Floats Uint63.
From Stdlib Require Import Sorted.
Import ListNotations.

Local Open Scope string_scope.
Local Open Scope list_scope.

(** ** Exceptions and outcomes *)

Inductive exn : Type :=
| ValueError (msg : string)
| ZeroDivisionError
| OverflowError
| TypeError
| KeyError.

(** The [ValueError]s of the program, by the message each is raised with. *)
Definition UnknownSymbol : exn := ValueError "Symbol does not exist in stock exchange".
Definition InvalidOrderSide : exn := ValueError "Order should be either 'Sell' or 'Buy'".
Definition InvalidPrice : exn := ValueError "Price is invalid".
Definition DivisionByZero : exn := ValueError "Cannot divide by zero".
Definition NoTradesInWindow : exn :=
  ValueError "No result - because total traded quantity is 0".

Inductive outcome (A : Type) : Type :=
| Return (a : A)
| Raise (e : exn).
Arguments Return {A} a.
Arguments Raise {A} e.

(** Sequencing of computations that touch no state. *)
Definition obind {A B} (o : outcome A) (f : A -> outcome B) : outcome B :=
  match o with
  | Return a => f a
  | Raise e => Raise e
  end.

Notation "x <~ o ;; k" := (obind o (fun x => k))
  (at level 61, o at next level, right associativity).

Fixpoint ofold {A B} (f : B -> A -> outcome B) (l : list A) (b : B) : outcome B :=
  match l with
  | [] => Return b
  | a :: l' => b' <~ f b a ;; ofold f l' b'
  end.

(** ** Python values that reach the numeric parameters: [int | float | str] *)

Inductive num : Type :=
| PyInt (z : Z)
| PyFloat (x : float).

Inductive pyvalue : Type :=
| PyNum (n : num)
| PyStr (s : string).

(** The result of [x ** y] on floats: a float, or a complex number (whose
    components are not modelled). *)
Inductive pynumber : Type :=
| PyReal (x : float)
| PyComplex.

(** ** The object state *)

Record Stock : Type := mkStock {
  type : string;
  last_dividend : num;
  fixed_dividend : option num;
  par_value : num
}.

Record Trade : Type := mkTrade {
  timestamp : Z;
  order : string;
  quantity : num;
  traded_price : num
}.

Definition dict (V : Type) : Type := list (string * V).

Fixpoint dict_get {V} (d : dict V) (k : string) : option V :=
  match d with
  | [] => None
  | (k', v) :: d' => if String.eqb k k' then Some v else dict_get d' k
  end.

Definition dict_keys {V} (d : dict V) : list string := map fst d.

Definition dict_mem {V} (k : string) (d : dict V) : bool :=
  existsb (String.eqb k) (dict_keys d).

(** The truth value of a dict: whether it has a key. *)
Definition dict_truth {V} (d : dict V) : bool :=
  match d with
  | [] => false
  | _ :: _ => true
  end.

(** [d[k] = v]: replaces the value of an existing key in place, and puts a new
    key last. *)
Fixpoint dict_set {V} (d : dict V) (k : string) (v : V) : dict V :=
  match d with
  | [] => [(k, v)]
  | (k', v') :: d' =>
      if String.eqb k k' then (k', v) :: d' else (k', v') :: dict_set d' k v
  end.

(** The state of a run: the [trades] attribute of the object, and the number
    of wall-clock readings taken so far. *)
Record World : Type := mkWorld {
  trades : dict (list Trade);
  clock_reads : nat
}.

(** ** What the program takes from the Python runtime *)

Class PyRuntime : Type := {
  (** the k-th reading of [datetime.datetime.now()]: a naive local date and
      time, in microseconds *)
  wall_clock : nat -> Z;
  (** [d.timestamp()] for a naive local date and time [d]: microseconds
      since the epoch *)
  to_timestamp : Z -> Z;
  (** [float(s)] for a string [s]; [None] when it raises [ValueError] *)
  float_of_str : string -> option float;
  (** [repr(s)] for a string [s] *)
  str_repr : string -> string;
  (** the C library's [pow] on a positive finite base other than 1 and a
      finite non-zero exponent, with the exception the interpreter raises
      when the library reports a range error *)
  libm_pow : float -> float -> outcome float
}.

(** [float(s)] on a string that is not a number. *)
Definition InvalidNumericFormat `{PyRuntime} (s : string) : exn :=
  ValueError ("could not convert string to float: " ++ str_repr s).

(** ** The monad of methods *)

Definition M (A : Type) : Type := World -> outcome A * World.

Definition ret {A} (a : A) : M A := fun w => (Return a, w).
Definition raise {A} (e : exn) : M A := fun w => (Raise e, w).
Definition bind {A B} (m : M A) (f : A -> M B) : M B :=
  fun w => match m w with
           | (Return a, w') => f a w'
           | (Raise e, w') => (Raise e, w')
           end.

Notation "x <- m ;; k" := (bind m (fun x => k))
  (at level 61, m at next level, right associativity).

(** An expression that touches no state, evaluated in a method. *)
Definition lift {A} (o : outcome A) : M A := fun w => (o, w).

Definition get_trades : M (dict (list Trade)) := fun w => (Return (trades w), w).
Definition set_trades (d : dict (list Trade)) : M unit :=
  fun w => (Return tt, mkWorld d (clock_reads w)).

Definition datetime_now `{PyRuntime} : M Z :=
  fun w => (Return (wall_clock (clock_reads w)),
            mkWorld (trades w) (S (clock_reads w))).

Definition five_minutes : Z := 300000000.

(** ** Python's arithmetic on ints and floats *)

(** The least magnitude that rounds to no finite float:
    [2^1024 - 2^970], half a unit in the last place above the largest
    float. *)
Definition float_limit : Z := Eval vm_compute in (2 ^ 1024 - 2 ^ 970)%Z.

(** An int as an unrounded binary number. *)
Definition sf_of_int (z : Z) : spec_float :=
  match z with
  | Z0 => S754_zero false
  | Zpos p => S754_finite false p 0
  | Zneg p => S754_finite true p 0
  end.

(** The float nearest to an int (ties to even), for an int an operation
    with a float converts: [OverflowError] when the int is too large. *)
Definition float_of_int (z : Z) : outcome float :=
  if (float_limit <=? Z.abs z)%Z then Raise OverflowError
  else Return (SF2Prim (binary_normalize prec emax z 0 false)).

Definition as_float (n : num) : outcome float :=
  match n with
  | PyInt z => float_of_int z
  | PyFloat x => Return x
  end.

(** [a + b] *)
Definition py_add (a b : num) : outcome num :=
  match a, b with
  | PyInt x, PyInt y => Return (PyInt (x + y))
  | _, _ => x <~ as_float a ;; y <~ as_float b ;; Return (PyFloat (x + y))
  end.

(** [a * b] *)
Definition py_mul (a b : num) : outcome num :=
  match a, b with
  | PyInt x, PyInt y => Return (PyInt (x * y))
  | _, _ => x <~ as_float a ;; y <~ as_float b ;; Return (PyFloat (x * y))
  end.

(** [a == 0], [a <= 0] and [a > 0]: an int and a float compare by value. *)
Definition py_eq0 (a : num) : bool :=
  match a with
  | PyInt z => (z =? 0)%Z
  | PyFloat x => (x =? 0)%float
  end.

Definition py_le0 (a : num) : bool :=
  match a with
  | PyInt z => (z <=? 0)%Z
  | PyFloat x => (x <=? 0)%float
  end.

Definition py_gt0 (a : num) : bool :=
  match a with
  | PyInt z => (0 <? z)%Z
  | PyFloat x => (0 <? x)%float
  end.

(** [a / b], always a float.  Two ints: [ZeroDivisionError] on a zero
    divisor, [OverflowError] when the quotient is too large, and otherwise
    the float nearest to the exact quotient.  With a float among them: both
    are converted, then [ZeroDivisionError] on a zero divisor (an int
    converts to a zero exactly when it is 0). *)
Definition py_div (a b : num) : outcome float :=
  match a, b with
  | PyInt x, PyInt y =>
      if (y =? 0)%Z then Raise ZeroDivisionError
      else if (float_limit * Z.abs y <=? Z.abs x)%Z then Raise OverflowError
      else Return (SF2Prim (SFdiv prec emax (sf_of_int x) (sf_of_int y)))
  | _, _ =>
      x <~ as_float a ;; y <~ as_float b ;;
      if py_eq0 b then Raise ZeroDivisionError else Return (x / y)%float
  end.

Definition truediv (a b : num) : M float := lift (py_div a b).

Local Open Scope float_scope.

(** [x == floor(x)]. *)
Definition is_integral (x : float) : bool :=
  match Prim2SF x with
  | S754_zero _ => true
  | S754_infinity _ => true
  | S754_nan => false
  | S754_finite _ m e =>
      if (0 <=? e)%Z then true else (Z.modulo (Zpos m) (2 ^ (- e)) =? 0)%Z
  end.

(** [fmod(fabs(x), 2.0) == 1.0]. *)
Definition is_odd_integer (x : float) : bool :=
  match Prim2SF x with
  | S754_finite _ m e =>
      if (0 <? e)%Z then false
      else ((Z.modulo (Zpos m) (2 ^ (- e)) =? 0)%Z
            && Z.odd (Z.div (Zpos m) (2 ^ (- e))))%bool
  | _ => false
  end.

(** [float.__pow__]: the special cases are decided before the C library is
    asked; a negative base with a fractional exponent gives a complex
    number. *)
Definition float_pow `{PyRuntime} (iv iw : float) : M pynumber :=
  if iw =? 0 then ret (PyReal 1)
  else if is_nan iv then ret (PyReal iv)
  else if is_nan iw then ret (PyReal (if iv =? 1 then 1 else iw))
  else if is_infinity iw then
    if abs iv =? 1 then ret (PyReal 1)
    else if Bool.eqb (0 <? iw) (1 <? abs iv) then ret (PyReal (abs iw))
    else ret (PyReal 0)
  else if is_infinity iv then
    if 0 <? iw
    then ret (PyReal (if is_odd_integer iw then iv else abs iv))
    else ret (PyReal (if is_odd_integer iw then (if iv <? 0 then -0 else 0) else 0))
  else if iv =? 0 then
    if iw <? 0 then raise ZeroDivisionError
    else ret (PyReal (if is_odd_integer iw then iv else 0))
  else if (iv <? 0) && negb (is_integral iw) then ret PyComplex
  else
    let negate_result := (iv <? 0) && is_odd_integer iw in
    let iv := if iv <? 0 then - iv else iv in
    if iv =? 1 then ret (PyReal (if negate_result then -1 else 1))
    else
      match libm_pow iv iw with
      | Return ix => ret (PyReal (if negate_result then - ix else ix))
      | Raise e => raise e
      end.

(** [a ** e] for a float exponent: an int base is converted first. *)
Definition py_pow `{PyRuntime} (a : num) (e : float) : M pynumber :=
  v <- lift (as_float a) ;; float_pow v e.

(** The integer nearest to [m * 2^e], ties to the even one. *)
Definition round_half_even (m e : Z) : Z :=
  if (0 <=? e)%Z then (m * 2 ^ e)%Z
  else
    let d := (2 ^ (- e))%Z in
    let q := (m / d)%Z in
    match (2 * (m mod d) ?= d)%Z with
    | Lt => q
    | Gt => (q + 1)%Z
    | Eq => if Z.even q then q else (q + 1)%Z
    end.

(** [round(x, 3)] on a float: the decimal with three fractional digits
    nearest to [x] (ties to even), then the float nearest to that decimal. *)
Definition float_round3 (x : float) : float :=
  match Prim2SF x with
  | S754_finite s m e =>
      match round_half_even (Zpos m * 1000) e with
      | Zpos n =>
          SF2Prim (SFdiv prec emax (S754_finite s n 0) (S754_finite false 1000 0))
      | _ => SF2Prim (S754_zero s)
      end
  | _ => x
  end.

(** [round(v, 3)]: complex numbers have no [__round__]. *)
Definition round3 (v : pynumber) : M float :=
  match v with
  | PyReal x => ret (float_round3 x)
  | PyComplex => raise TypeError
  end.

Local Close Scope float_scope.

(** ** The class [StockMarket] *)

(** [self.exchange_data], set by [__init__] and never assigned again. *)
Definition exchange_data : dict Stock :=
  [ ("TEA", mkStock "Common" (PyInt 0) None (PyInt 100));
    ("POP", mkStock "Common" (PyInt 8) None (PyInt 100));
    ("ALE", mkStock "Common" (PyInt 23) None (PyInt 60));
    ("GIN", mkStock "Preferred" (PyInt 8) (Some (PyInt 2)) (PyInt 100));
    ("JOE", mkStock "Common" (PyInt 13) None (PyInt 250)) ].

(** The object [__init__] builds: no trades, and no clock reading yet. *)
Definition init : World := mkWorld [] 0.

(** [d[k]] *)
Definition getitem {V} (d : dict V) (k : string) : M V :=
  match dict_get d k with
  | Some v => ret v
  | None => raise KeyError
  end.

(** [a * b] where [a] may be [None] *)
Definition mul_opt (a : option num) (b : num) : M num :=
  match a with
  | Some x => lift (py_mul x b)
  | None => raise TypeError
  end.

Fixpoint foldM {A B} (f : B -> A -> M B) (l : list A) (b : B) : M B :=
  match l with
  | [] => ret b
  | a :: l' => b' <- f b a ;; foldM f l' b'
  end.

Section Methods.
Context `{PyRuntime}.

(** Raises the ValueError of an unknown symbol unless [symbol] is a key of
    [exchange_data]. *)
Definition validate_stock_symbol (symbol : string) : M string :=
  if negb (dict_mem symbol exchange_data)
  then raise UnknownSymbol
  else ret symbol.

(** [float(value)] when [type(value) == str], and [value] itself, int or
    float, otherwise. *)
Definition str_to_float (value : pyvalue) : M num :=
  match value with
  | PyStr s =>
      match float_of_str s with
      | Some x => ret (PyFloat x)
      | None => raise (InvalidNumericFormat s)
      end
  | PyNum n => ret n
  end.

(** Only ["Buy"] and ["Sell"] pass. *)
Definition validate_order (order : string) : M string :=
  if negb (order =? "Buy") && negb (order =? "Sell")
  then raise InvalidOrderSide
  else ret order.

(** [last_dividend / price] for a Common stock, and
    [fixed_dividend * par_value / price] for any other. *)
Definition calculate_dividend_yield (symbol : string) (price : pyvalue) : M float :=
  symbol <- validate_stock_symbol symbol ;;
  price <- str_to_float price ;;
  stock <- getitem exchange_data symbol ;;
  if py_le0 price then raise InvalidPrice
  else if type stock =? "Common"
       then truediv (last_dividend stock) price
       else x <- mul_opt (fixed_dividend stock) (par_value stock) ;;
            truediv x price.

(** [price / dividend], the dividend being the yield computed above. *)
Definition calculate_pe_ratio (symbol : string) (price : pyvalue) : M float :=
  symbol <- validate_stock_symbol symbol ;;
  price <- str_to_float price ;;
  dividend <- calculate_dividend_yield symbol (PyNum price) ;;
  if (dividend =? 0)%float then raise DivisionByZero
  else truediv price (PyFloat dividend).

(** Stamps a trade with the clock and puts it last in the symbol's list.
    ([order] is the source's optional fourth argument, ["Buy"] when left
    out.) *)
Definition record_trade (symbol : string) (quantity price : pyvalue)
           (order : string) : M Trade :=
  symbol <- validate_stock_symbol symbol ;;
  quantity <- str_to_float quantity ;;
  price <- str_to_float price ;;
  order <- validate_order order ;;
  now <- datetime_now ;;
  let trade_data :=
    mkTrade (to_timestamp now) (if order =? "Buy" then "Buy" else "Sell")
            quantity price in
  trs <- get_trades ;;
  _ <- (if negb (dict_mem symbol trs)
        then set_trades (dict_set trs symbol [trade_data])
        else l <- getitem trs symbol ;;
             set_trades (dict_set trs symbol (l ++ [trade_data]))) ;;
  ret trade_data.

(** The two statements under the [if] of the loop of
    [calculate_vws_price], on the pair [(total_trade_amount, total_qty)]. *)
Definition vws_add (acc : num * num) (t : Trade) : outcome (num * num) :=
  x <~ py_mul (traded_price t) (quantity t) ;;
  total_trade_amount <~ py_add (fst acc) x ;;
  total_qty <~ py_add (snd acc) (quantity t) ;;
  Return (total_trade_amount, total_qty).

(** The body of the loop: a trade stamped before [time_before_5_min] is
    passed over. *)
Definition vws_step (time_before_5_min : Z) (acc : num * num) (t : Trade)
  : outcome (num * num) :=
  if (timestamp t >=? time_before_5_min)%Z then vws_add acc t else Return acc.

(** The clock is read before the store is looked at, so every call that
    passes validation takes one reading.  The result is a float, or the int
    0 of a symbol that is no key of [trades]. *)
Definition calculate_vws_price (symbol : string) : M num :=
  symbol <- validate_stock_symbol symbol ;;
  now <- datetime_now ;;
  let time_before_5_min := to_timestamp (now - five_minutes) in
  trs <- get_trades ;;
  if dict_mem symbol trs then
    l <- getitem trs symbol ;;
    totals <- lift (ofold (vws_step time_before_5_min) l (PyInt 0, PyInt 0)) ;;
    let '(total_trade_amount, total_qty) := totals in
    if py_eq0 total_qty then raise NoTradesInWindow
    else r <- truediv total_trade_amount total_qty ;; ret (PyFloat r)
  else ret (PyInt 0).

(** The loop runs over the keys of [trades] in insertion order; the
    division by [len] and the power come after it, whether it ran or not. *)
Definition calculate_gbce : M float :=
  trs <- get_trades ;;
  total_vws_price <-
    (if dict_truth trs
     then foldM (fun total symbol =>
                   v <- calculate_vws_price symbol ;; lift (py_mul total v))
                (dict_keys trs) (PyInt 1)
     else ret (PyInt 1)) ;;
  trs <- get_trades ;;
  e <- truediv (PyInt 1) (PyInt (Z.of_nat (List.length (dict_keys trs)))) ;;
  gbce <- py_pow total_vws_price e ;;
  round3 gbce.

End Methods.

(** ** The vocabulary of the properties *)

(** The world after one more reading of the clock. *)
Definition tick (w : World) : World :=
  mkWorld (trades w) (S (clock_reads w)).

(** The timestamp of the reading the next [datetime.datetime.now()]
    gives. *)
Definition now_of `{PyRuntime} (w : World) : Z :=
  to_timestamp (wall_clock (clock_reads w)).

(** The timestamp of that reading moved five minutes back: the start of the
    trailing window of a [calculate_vws_price] called in [w]. *)
Definition window_start `{PyRuntime} (w : World) : Z :=
  to_timestamp (wall_clock (clock_reads w) - five_minutes).

(** A trade is in the window that starts at [start] when its timestamp is
    at least [start]. *)
Definition in_window (start : Z) (t : Trade) : bool :=
  (timestamp t >=? start)%Z.

Definition recent_trades (start : Z) (l : list Trade) : list Trade :=
  filter (in_window start) l.





(** The trades recorded for a symbol: its list, or none when it is no key. *)
Definition trades_of (d : dict (list Trade)) (symbol : string) : list Trade :=
  match dict_get d symbol with
  | Some l => l
  | None => []
  end.

(** The product of the volume-weighted prices, as the loop of
    [calculate_gbce] accumulates it from 1. *)
Definition product (vs : list num) : outcome num :=
  ofold py_mul vs (PyInt 1).

(** [1 / n] for a number [n] of keys that is not 0: the exponent of the
    geometric mean. *)
Definition root_exponent (n : nat) : float :=
  SF2Prim (SFdiv prec emax (sf_of_int 1) (sf_of_int (Z.of_nat n))).

(** A computation that leaves [trades] as it found it, whatever it returns
    or raises. *)
Definition keeps_trades {A} (m : M A) : Prop :=
  forall w, trades (snd (m w)) = trades w.

(** [vws_run w ks vs w']: from [w], calling [calculate_vws_price] on the
    symbols [ks] in turn returns the prices [vs] and ends in [w']. *)
Inductive vws_run `{PyRuntime} : World -> list string -> list num -> World -> Prop :=
| vws_run_nil w : vws_run w [] [] w
| vws_run_cons w k ks v vs w' w'' :
    calculate_vws_price k w = (Return v, w') ->
    vws_run w' ks vs w'' ->
    vws_run w (k :: ks) (v :: vs) w''.

(** A call of a public method, and the world it leaves. *)
Inductive call : Type :=
| CallValidateStockSymbol (symbol : string)
| CallStrToFloat (value : pyvalue)
| CallValidateOrder (order : string)
| CallCalculateDividendYield (symbol : string) (price : pyvalue)
| CallCalculatePeRatio (symbol : string) (price : pyvalue)
| CallRecordTrade (symbol : string) (quantity price : pyvalue) (order : string)
| CallCalculateVwsPrice (symbol : string)
| CallCalculateGbce.

Definition exec `{PyRuntime} (c : call) (w : World) : World :=
  match c with
  | CallValidateStockSymbol s => snd (validate_stock_symbol s w)
  | CallStrToFloat v => snd (str_to_float v w)
  | CallValidateOrder o => snd (validate_order o w)
  | CallCalculateDividendYield s p => snd (calculate_dividend_yield s p w)
  | CallCalculatePeRatio s p => snd (calculate_pe_ratio s p w)
  | CallRecordTrade s q p o => snd (record_trade s q p o w)
  | CallCalculateVwsPrice s => snd (calculate_vws_price s w)
  | CallCalculateGbce => snd (calculate_gbce w)
  end.

(** The worlds a run can be in: the one [__init__] leaves, and those that
    calls of the methods lead to. *)
Inductive reachable `{PyRuntime} : World -> Prop :=
| reachable_init : reachable init
| reachable_step c w : reachable w -> reachable (exec c w).

(** The world a sequence of calls leaves, the calls made in turn from [w]. *)
Fixpoint run `{PyRuntime} (cs : list call) (w : World) : World :=
  match cs with
  | [] => w
  | c :: cs' => run cs' (exec c w)
  end.

(** The trades that the successful [record_trade] calls among [cs] return
    for [symbol], in the order of the calls. *)
Fixpoint recorded `{PyRuntime} (cs : list call) (w : World) (symbol : string)
  : list Trade :=
  match cs with
  | [] => []
  | c :: cs' =>
      match c with
      | CallRecordTrade s q p o =>
          match record_trade s q p o w with
          | (Return t, _) => if String.eqb s symbol then [t] else []
          | (Raise _, _) => []
          end
      | _ => []
      end ++ recorded cs' (exec c w) symbol
  end.

(** A clock that never runs backwards: the timestamps of its successive
    readings never decrease. *)
Definition monotone_clock `{PyRuntime} : Prop :=
  forall i j, (i <= j)%nat ->
              (to_timestamp (wall_clock i) <= to_timestamp (wall_clock j))%Z.

(** [a] is stamped no later than [b]. *)
Definition no_later (a b : Trade) : Prop := (timestamp a <= timestamp b)%Z.

(** A float that is not negative: a zero, a positive number, plus infinity,
    or not a number. *)
Definition not_negative (x : float) : Prop := (x <? 0)%float = false.

(** A computation that only computes: it leaves the world as it is, and
    its outcome is the same in every world. *)
Definition only_computes {A} (m : M A) : Prop :=
  exists o, forall w, m w = (o, w).

(** A computation after which no fewer clock readings have been taken. *)
Definition reads_on {A} (m : M A) : Prop :=
  forall w, (clock_reads w <= clock_reads (snd (m w)))%nat.

(** A float, as the standard describes it, whose sign bit is not set. *)
Definition sign_clear (x : spec_float) : Prop :=
  match x with
  | S754_zero s | S754_infinity s | S754_finite s _ _ => s = false
  | S754_nan => True
  end.

(** What the loop of [calculate_gbce] multiplies: the int 1 it starts from,
    the int 0 and the floats that [calculate_vws_price] returns, and their
    products. *)
Definition one_zero_or_float (n : num) : Prop :=
  n = PyInt 1 \/ n = PyInt 0 \/ exists x, n = PyFloat x.

(** ** A runtime to evaluate the program on *)

(** [float] on the few strings the examples use; every other string is taken
    not to be a number. *)
Definition demo_float_of_str (s : string) : option float :=
  if s =? "100" then Some 100%float
  else if s =? "3.5" then Some 3.5%float
  else if s =? "2" then Some 2%float
  else if s =? "9007199254740993" then Some 9007199254740992%float
  else None.

(** [repr] on strings with no quote, backslash or control character. *)
Definition demo_repr (s : string) : string := "'" ++ s ++ "'".

(** A stand-in for the C library's [pow], exact on the exponents the examples
    use: [x ** 1] and [x ** 0.5]. *)
Definition demo_pow (x y : float) : outcome float :=
  if (y =? 1)%float then Return x
  else if (y =? 0.5)%float then Return (PrimFloat.sqrt x)
  else Raise OverflowError.

(** One second passes between two readings of the clock. *)
Definition demo_clock (k : nat) : Z :=
  (1700000000000000 + 1000000 * Z.of_nat k)%Z.

(** Local time is the time of the epoch's zone, with no offset. *)
Definition demo_runtime : PyRuntime :=
  {| wall_clock := demo_clock;
     to_timestamp := fun d => d;
     float_of_str := demo_float_of_str;
     str_repr := demo_repr;
     libm_pow := demo_pow |}.

(** Worlds to evaluate the program on.  [demo_pop]: 10 POP bought at 100.
    [demo_pop_tea]: then 4 TEA sold at 25.  [demo_negative]: instead, 1 TEA
    sold at the price -4.  [demo_zero_quantity]: a single trade of quantity
    0.  [demo_old]: a POP trade six minutes before the next clock reading
    and one at that reading. *)
Definition demo_pop : World :=
  snd (@record_trade demo_runtime "POP" (PyNum (PyInt 10)) (PyNum (PyInt 100))
         "Buy" init).

Definition demo_pop_tea : World :=
  snd (@record_trade demo_runtime "TEA" (PyNum (PyInt 4)) (PyNum (PyInt 25))
         "Sell" demo_pop).

Definition demo_negative : World :=
  snd (@record_trade demo_runtime "TEA" (PyNum (PyInt 1)) (PyNum (PyInt (-4)))
         "Sell" demo_pop).





(** [demo_zero_tea]: 10 POP bought at 100, then a TEA trade of quantity 0. *)
Definition demo_zero_tea : World :=
  snd (@record_trade demo_runtime "TEA" (PyNum (PyInt 0)) (PyNum (PyInt 25))
         "Sell" demo_pop).



(** * Properties *)

(** ** Facts of binary64 arithmetic *)

Local Open Scope float_scope.

Lemma Prim2SF_one : Prim2SF 1 = S754_finite false 4503599627370496 (-52).
Proof. reflexivity. Qed.

Lemma Prim2SF_zero : Prim2SF 0 = S754_zero false.
Proof. reflexivity. Qed.

Lemma digits2_pos_shift52 (m : positive) :
  Zpos (digits2_pos
    (m~0~0~0~0~0~0~0~0~0~0~0~0~0~0~0~0~0~0~0~0~0~0~0~0~0~0
      ~0~0~0~0~0~0~0~0~0~0~0~0~0~0~0~0~0~0~0~0~0~0~0~0~0~0))
  = (Zpos (digits2_pos m) + 52)%Z.
Proof. cbn [digits2_pos]. lia. Qed.

(** Multiplying a well-formed float by 1 is exact: the product's mantissa is
    the operand's followed by 52 zero bits, which rounding shifts out. *)
Lemma SFmul_one_l (x : spec_float) :
  valid_binary x = true ->
  SFmul prec emax (S754_finite false 4503599627370496 (-52)) x = x.
Proof.
  destruct x as [s|s| |s m e]; intros Hv; try reflexivity.
  cbn [SFmul xorb Pos.mul].
  unfold binary_round_aux, shr_fexp.
  cbn [Zdigits2]. rewrite digits2_pos_shift52.
  cbn in Hv. unfold bounded, canonical_mantissa in Hv.
  apply andb_prop in Hv. destruct Hv as [Hc Hb].
  apply Z.eqb_eq in Hc.
  replace (Z.pos (digits2_pos m) + 52 + (-52 + e))%Z
    with (Z.pos (digits2_pos m) + e)%Z by lia.
  rewrite Hc.
  replace (e - (-52 + e))%Z with 52%Z by lia.
  cbn [shr shr_record_of_loc iter_pos shr_1].
  cbn [shr_m loc_of_shr_record round_nearest_even orb].
  replace (-52 + e + 52)%Z with e by lia.
  cbn [Zdigits2]. rewrite Hc. rewrite Z.sub_diag. cbn [shr shr_m].
  rewrite Hb. reflexivity.
Qed.

Lemma float_mul_1_l (x : float) : 1 * x = x.
Proof.
  apply Prim2SF_inj. rewrite FloatAxioms.mul_spec. unfold SF64mul.
  rewrite Prim2SF_one. apply SFmul_one_l. apply Prim2SF_valid.
Qed.

Lemma leb0_false_eqb0 (p : float) : (p <=? 0) = false -> (p =? 0) = false.
Proof.
  rewrite FloatAxioms.leb_spec, FloatAxioms.eqb_spec, Prim2SF_zero.
  unfold SFleb, SFeqb.
  destruct (SFcompare (Prim2SF p) (S754_zero false)) as [[| |]|]; congruence.
Qed.

Lemma ltb0_leb0 (p : float) : (0 <? p) = true -> (p <=? 0) = false.
Proof.
  rewrite FloatAxioms.leb_spec, FloatAxioms.ltb_spec, Prim2SF_zero.
  unfold SFleb, SFltb.
  destruct (Prim2SF p) as [s|[|]| |[|] m e]; cbn; congruence.
Qed.

(** [0 / p] is a zero for every positive [p], infinity included. *)
Lemma zero_div_pos (p : float) : (0 <? p) = true -> (0 / p =? 0) = true.
Proof.
  rewrite FloatAxioms.ltb_spec, FloatAxioms.eqb_spec, FloatAxioms.div_spec,
    Prim2SF_zero.
  unfold SFltb, SFeqb, SF64div.
  destruct (Prim2SF p) as [s|[|]| |[|] m e]; cbn; congruence.
Qed.

Lemma float_opp_involutive (x : float) : - - x = x.
Proof.
  apply Prim2SF_inj. rewrite !FloatAxioms.opp_spec.
  destruct (Prim2SF x) as [s|s| |s m e]; cbn; rewrite ?negb_involutive;
    reflexivity.
Qed.

Lemma SFeqb_finite_eq (x : spec_float) s m e :
  SFeqb x (S754_finite s m e) = true -> x = S754_finite s m e.
Proof.
  unfold SFeqb.
  destruct x as [s'|s'| |s' m' e']; cbn;
    try (destruct s'; discriminate); try (destruct s; discriminate);
    try discriminate.
  change (Pos.compare_cont Eq m' m) with (Pos.compare m' m).
  destruct s', s; try discriminate;
    destruct (Z.compare_spec e' e); try discriminate;
    destruct (Pos.compare_spec m' m); cbn; try discriminate;
    intros _; subst; reflexivity.
Qed.

(** Only 1 itself compares equal to 1. *)
Lemma eqb_one_eq (x : float) : (x =? 1) = true -> x = 1.
Proof.
  rewrite FloatAxioms.eqb_spec, Prim2SF_one. intros Hx.
  apply SFeqb_finite_eq in Hx. apply Prim2SF_inj. rewrite Hx. reflexivity.
Qed.

Local Close Scope float_scope.

(** [round_half_even m e] is an integer nearest to [m * 2^e], and the even
    one of the two when [m * 2^e] lies half way between them. *)
Lemma round_half_even_nearest (m e : Z) :
  (e < 0)%Z ->
  let d := (2 ^ (- e))%Z in
  let n := round_half_even m e in
  (2 * Z.abs (m - n * d) <= d)%Z
  /\ ((2 * Z.abs (m - n * d))%Z = d -> Z.even n = true).
Proof.
  intros He d n. subst n. unfold round_half_even.
  destruct (Z.leb_spec 0 e) as [|_]; [lia|]. fold d.
  assert (Hd : (0 < d)%Z) by (apply Z.pow_pos_nonneg; lia).
  pose proof (Z.div_mod m d ltac:(lia)) as Hm.
  pose proof (Z.mod_pos_bound m d Hd) as Hr.
  destruct (Z.compare_spec (2 * (m mod d)) d) as [Heq|Hlt|Hgt].
  - destruct (Z.even (m / d)) eqn:Hev.
    + split; [lia | intros _; exact Hev].
    + split; [lia|]. intros _. rewrite Z.even_add, Hev. reflexivity.
  - split; lia.
  - split; lia.
Qed.

Lemma round_half_even_exact (m e : Z) :
  (0 <= e)%Z -> round_half_even m e = (m * 2 ^ e)%Z.
Proof.
  intros He. unfold round_half_even.
  destruct (Z.leb_spec 0 e); [reflexivity | lia].
Qed.

(** ** Signs *)

Lemma binary_round_aux_sign_clear (m e : Z) (l : location) :
  sign_clear (binary_round_aux prec emax false m e l).
Proof.
  unfold binary_round_aux.
  destruct (shr_fexp prec emax m e l) as [mrs e'].
  destruct (shr_fexp prec emax _ e' loc_Exact) as [mrs' e''].
  destruct (shr_m mrs'); [reflexivity | | exact I].
  destruct (e'' <=? emax - prec)%Z; reflexivity.
Qed.

Lemma binary_round_sign_clear (m : positive) (e : Z) :
  sign_clear (binary_round prec emax false m e).
Proof.
  unfold binary_round.
  destruct (shl_align m e _) as [mz ez]. apply binary_round_aux_sign_clear.
Qed.

Lemma binary_normalize_sign_clear (z : Z) :
  (0 <= z)%Z -> sign_clear (binary_normalize prec emax z 0 false).
Proof.
  destruct z as [|p|p]; intros Hz; [reflexivity | | lia].
  apply binary_round_sign_clear.
Qed.

Lemma SFdiv_sign_clear (x y : spec_float) :
  sign_clear x -> sign_clear y -> sign_clear (SFdiv prec emax x y).
Proof.
  destruct x as [sx|sx| |sx mx ex], y as [sy|sy| |sy my ey]; cbn;
    intros Hx Hy; subst; try reflexivity; try exact I.
  destruct (SFdiv_core_binary prec emax (Z.pos mx) ex (Z.pos my) ey)
    as [[mz ez] lz].
  apply binary_round_aux_sign_clear.
Qed.

(** The float that stands for a binary number of clear sign has a clear
    sign. *)
Lemma SF2Prim_sign_clear (x : spec_float) :
  sign_clear x -> sign_clear (Prim2SF (SF2Prim x)).
Proof.
  destruct x as [s|s| |s m e]; cbn [sign_clear]; intros Hs; subst;
    try reflexivity.
  cbn [SF2Prim]. rewrite FloatLemmas.Z_ldexp_spec, FloatAxioms.of_uint63_spec.
  pose proof (Uint63.to_Z_bounded (Uint63.of_Z (Z.pos m))) as [Hm _].
  pose proof (binary_normalize_sign_clear _ Hm) as Hn.
  destruct (binary_normalize prec emax _ 0 false) as [s|s| |s m' e'];
    cbn in Hn |- *; subst; try reflexivity.
  apply binary_round_sign_clear.
Qed.

Lemma sign_clear_not_negative (x : float) :
  sign_clear (Prim2SF x) -> not_negative x.
Proof.
  unfold not_negative. rewrite FloatAxioms.ltb_spec, Prim2SF_zero.
  unfold SFltb. destruct (Prim2SF x) as [s|s| |s m e]; cbn;
    intros Hs; subst; reflexivity.
Qed.

Lemma positive_sign_clear (p : float) :
  (0 <? p)%float = true -> sign_clear (Prim2SF p).
Proof.
  rewrite FloatAxioms.ltb_spec, Prim2SF_zero. unfold SFltb.
  destruct (Prim2SF p) as [s|[|]| |[|] m e]; cbn; congruence.
Qed.

Lemma div_sign_clear (x y : float) :
  sign_clear (Prim2SF x) -> sign_clear (Prim2SF y) ->
  sign_clear (Prim2SF (x / y)%float).
Proof. rewrite FloatAxioms.div_spec. apply SFdiv_sign_clear. Qed.

(** ** Facts of Python's arithmetic *)

Lemma float_limit_large : (200 < float_limit)%Z.
Proof. reflexivity. Qed.

(** Converting an int fails only with [OverflowError]. *)
Lemma as_float_raises (n : num) (e : exn) :
  as_float n = Raise e -> e = OverflowError.
Proof.
  destruct n as [z|x]; cbn; [|discriminate]. unfold float_of_int.
  destruct (float_limit <=? Z.abs z)%Z; [now intros [= <-] | discriminate].
Qed.

Lemma py_add_raises (a b : num) (e : exn) :
  py_add a b = Raise e -> e = OverflowError.
Proof.
  destruct a as [x|x], b as [y|y]; cbn [py_add]; try discriminate;
    destruct (as_float _) eqn:Ha; cbn [obind];
    try (intros [= <-]; now apply as_float_raises in Ha);
    destruct (as_float _) eqn:Hb in |- *; cbn [obind]; try discriminate;
    intros [= <-]; now apply as_float_raises in Hb.
Qed.

Lemma py_mul_raises (a b : num) (e : exn) :
  py_mul a b = Raise e -> e = OverflowError.
Proof.
  destruct a as [x|x], b as [y|y]; cbn [py_mul]; try discriminate;
    destruct (as_float _) eqn:Ha; cbn [obind];
    try (intros [= <-]; now apply as_float_raises in Ha);
    destruct (as_float _) eqn:Hb in |- *; cbn [obind]; try discriminate;
    intros [= <-]; now apply as_float_raises in Hb.
Qed.

(** A division by a number that is not zero fails only with
    [OverflowError]. *)
Lemma py_div_raises (a b : num) (e : exn) :
  py_eq0 b = false -> py_div a b = Raise e -> e = OverflowError.
Proof.
  intros Hb.
  assert (Hmixed : (x <~ as_float a ;; y <~ as_float b ;;
                    if py_eq0 b then Raise ZeroDivisionError
                    else Return (x / y)%float) = Raise e ->
                   e = OverflowError).
  { rewrite Hb. destruct (as_float a) eqn:Ha; cbn [obind];
      [|intros [= <-]; now apply as_float_raises in Ha].
    destruct (as_float b) eqn:Hy; cbn [obind]; [discriminate|].
    intros [= <-]. now apply as_float_raises in Hy. }
  destruct a as [x|x], b as [y|y]; cbn [py_div]; try exact Hmixed.
  cbn in Hb. rewrite Hb.
  destruct (float_limit * Z.abs y <=? Z.abs x)%Z;
    [now intros [= <-] | discriminate].
Qed.

(** The float of a small int. *)
Lemma float_of_int_small (z : Z) :
  (Z.abs z <= 200)%Z ->
  float_of_int z = Return (SF2Prim (binary_normalize prec emax z 0 false)).
Proof.
  intros Hz. unfold float_of_int.
  pose proof float_limit_large.
  destruct (Z.leb_spec float_limit (Z.abs z)); [lia | reflexivity].
Qed.

(** A small int divided by a positive int: the division is in range. *)
Lemma py_div_small_int (a z : Z) :
  (0 <= a <= 200)%Z -> (0 < z)%Z ->
  py_div (PyInt a) (PyInt z)
  = Return (SF2Prim (SFdiv prec emax (sf_of_int a) (sf_of_int z))).
Proof.
  intros Ha Hz. cbn [py_div]. pose proof float_limit_large.
  destruct (Z.eqb_spec z 0); [lia|].
  destruct (Z.leb_spec (float_limit * Z.abs z) (Z.abs a)); [nia | reflexivity].
Qed.

(** A small int divided by a float that is not zero. *)
Lemma py_div_small_float (a : Z) (x : float) :
  (0 <= a <= 200)%Z -> (x =? 0)%float = false ->
  py_div (PyInt a) (PyFloat x)
  = Return (SF2Prim (binary_normalize prec emax a 0 false) / x)%float.
Proof.
  intros Ha Hx. cbn [py_div as_float].
  rewrite float_of_int_small by lia. cbn [obind py_eq0].
  now rewrite Hx.
Qed.

(** The quotient of an int that is not negative by a positive number is
    not negative. *)
Lemma py_div_not_negative (a : Z) (p : num) (y : float) :
  (0 <= a)%Z -> py_gt0 p = true ->
  py_div (PyInt a) p = Return y -> sign_clear (Prim2SF y).
Proof.
  intros Ha Hp. destruct p as [z|x]; cbn [py_div py_gt0 py_eq0 as_float] in *.
  - destruct (z =? 0)%Z; [discriminate|].
    destruct (_ <=? _)%Z; [discriminate|]. intros [= <-].
    apply SF2Prim_sign_clear, SFdiv_sign_clear.
    + destruct a; cbn; [reflexivity | reflexivity | lia].
    + apply Z.ltb_lt in Hp. destruct z; cbn; [lia | reflexivity | lia].
  - unfold float_of_int. destruct (_ <=? _)%Z; [discriminate|].
    cbn [obind]. destruct (x =? 0)%float; [discriminate|]. intros [= <-].
    apply div_sign_clear; [|now apply positive_sign_clear].
    apply SF2Prim_sign_clear. now apply binary_normalize_sign_clear.
Qed.

(** The float a positive number converts to has a clear sign. *)
Lemma as_float_sign_clear (p : num) (x : float) :
  py_gt0 p = true -> as_float p = Return x -> sign_clear (Prim2SF x).
Proof.
  destruct p as [z|x0]; cbn [py_gt0 as_float].
  - intros Hp. unfold float_of_int. destruct (_ <=? _)%Z; [discriminate|].
    intros [= <-]. apply SF2Prim_sign_clear, binary_normalize_sign_clear.
    apply Z.ltb_lt in Hp. lia.
  - intros Hp [= <-]. now apply positive_sign_clear.
Qed.

(** Multiplying what the loop of [calculate_gbce] holds by a price never
    fails. *)
Lemma py_mul_one_zero_or_float (a v : num) :
  one_zero_or_float a -> v = PyInt 0 \/ (exists x, v = PyFloat x) ->
  exists c, py_mul a v = Return c /\ one_zero_or_float c.
Proof.
  unfold one_zero_or_float.
  intros [->|[->|[x ->]]] [->|[y ->]]; cbn; eexists; split;
    try reflexivity; eauto.
Qed.
(** ** Facts of dicts *)

Lemma dict_mem_In {V} (k : string) (d : dict V) :
  dict_mem k d = true <-> In k (dict_keys d).
Proof.
  unfold dict_mem. rewrite existsb_exists. split.
  - intros [x [Hx Heq]]. apply String.eqb_eq in Heq. now subst.
  - intros Hk. exists k. split; [assumption | apply String.eqb_refl].
Qed.

Lemma dict_mem_false {V} (k : string) (d : dict V) :
  dict_mem k d = false <-> ~ In k (dict_keys d).
Proof.
  rewrite <- dict_mem_In. destruct (dict_mem k d); split; intros; congruence.
Qed.

Lemma dict_mem_get {V} (k : string) (d : dict V) :
  dict_mem k d = match dict_get d k with Some _ => true | None => false end.
Proof.
  unfold dict_mem, dict_keys.
  induction d as [|[k' v] d IH]; cbn; [reflexivity|].
  destruct (String.eqb k k'); [reflexivity | exact IH].
Qed.

Lemma dict_get_set_same {V} (d : dict V) (k : string) (v : V) :
  dict_get (dict_set d k v) k = Some v.
Proof.
  induction d as [|[k' v'] d IH]; cbn.
  - now rewrite String.eqb_refl.
  - destruct (String.eqb k k') eqn:E; cbn; rewrite E; [reflexivity | exact IH].
Qed.

Lemma dict_get_set_other {V} (d : dict V) (k k' : string) (v : V) :
  k' <> k -> dict_get (dict_set d k v) k' = dict_get d k'.
Proof.
  intros Hne. induction d as [|[k0 v0] d IH]; cbn.
  - apply String.eqb_neq in Hne. now rewrite Hne.
  - destruct (String.eqb k k0) eqn:E; cbn.
    + apply String.eqb_eq in E. subst k0.
      apply String.eqb_neq in Hne. now rewrite Hne.
    + now rewrite IH.
Qed.

Lemma dict_keys_set {V} (d : dict V) (k : string) (v : V) :
  dict_keys (dict_set d k v) =
  if dict_mem k d then dict_keys d else dict_keys d ++ [k].
Proof.
  unfold dict_mem, dict_keys.
  induction d as [|[k0 v0] d IH]; cbn; [reflexivity|].
  destruct (String.eqb k k0) eqn:E; cbn; [reflexivity|].
  rewrite IH. now destruct (existsb (String.eqb k) (map fst d)).
Qed.

(** ** Symbol validation *)

Section Validation.
Context `{PyRuntime}.

Lemma catalog_keys :
  dict_keys exchange_data = ["TEA"; "POP"; "ALE"; "GIN"; "JOE"].
Proof. reflexivity. Qed.

Lemma validate_unknown (symbol : string) (w : World) :
  dict_mem symbol exchange_data = false ->
  validate_stock_symbol symbol w = (Raise UnknownSymbol, w).
Proof. intros Hm. unfold validate_stock_symbol. now rewrite Hm. Qed.

Lemma validate_known (symbol : string) (w : World) :
  dict_mem symbol exchange_data = true ->
  validate_stock_symbol symbol w = (Return symbol, w).
Proof. intros Hm. unfold validate_stock_symbol. now rewrite Hm. Qed.

(** C7. A symbol outside TEA, POP, ALE, GIN, JOE makes every operation that
    takes a symbol ([validate_stock_symbol], [calculate_dividend_yield],
    [calculate_pe_ratio], [record_trade], [calculate_vws_price]) fail with
    UnknownSymbol, whatever the other arguments and leaving the world as it
    was; a symbol of the catalog is returned unchanged by
    [validate_stock_symbol]. *)
Theorem unknown_symbol_rejected (symbol : string) (w : World) :
  (~ In symbol ["TEA"; "POP"; "ALE"; "GIN"; "JOE"] ->
     validate_stock_symbol symbol w = (Raise UnknownSymbol, w)
     /\ (forall price,
           calculate_dividend_yield symbol price w = (Raise UnknownSymbol, w))
     /\ (forall price,
           calculate_pe_ratio symbol price w = (Raise UnknownSymbol, w))
     /\ (forall quantity price order,
           record_trade symbol quantity price order w = (Raise UnknownSymbol, w))
     /\ calculate_vws_price symbol w = (Raise UnknownSymbol, w))
  /\ (In symbol ["TEA"; "POP"; "ALE"; "GIN"; "JOE"] ->
        validate_stock_symbol symbol w = (Return symbol, w)).
Proof.
  rewrite <- catalog_keys. split.
  - intros Hout. apply dict_mem_false in Hout.
    pose proof (validate_unknown symbol w Hout) as Hv.
    repeat split; intros;
      unfold calculate_dividend_yield, calculate_pe_ratio, record_trade,
        calculate_vws_price, bind;
      now rewrite ?Hv.
  - intros Hin. apply dict_mem_In in Hin. now apply validate_known.
Qed.

End Validation.

(** ** Dividend yield and P/E ratio *)

Section Ratios.
Context `{PyRuntime}.

Lemma catalog_get_mem (symbol : string) (stock : Stock) :
  dict_get exchange_data symbol = Some stock ->
  dict_mem symbol exchange_data = true.
Proof. intros Hg. now rewrite dict_mem_get, Hg. Qed.

(** The five records of the catalog. *)
Lemma catalog_cases (symbol : string) (stock : Stock) :
  dict_get exchange_data symbol = Some stock ->
  (symbol = "TEA" /\ stock = mkStock "Common" (PyInt 0) None (PyInt 100))
  \/ (symbol = "POP" /\ stock = mkStock "Common" (PyInt 8) None (PyInt 100))
  \/ (symbol = "ALE" /\ stock = mkStock "Common" (PyInt 23) None (PyInt 60))
  \/ (symbol = "GIN"
      /\ stock = mkStock "Preferred" (PyInt 8) (Some (PyInt 2)) (PyInt 100))
  \/ (symbol = "JOE" /\ stock = mkStock "Common" (PyInt 13) None (PyInt 250)).
Proof.
  unfold exchange_data. cbn [dict_get].
  repeat match goal with
         | |- context [String.eqb symbol ?k] =>
             destruct (String.eqb_spec symbol k) as [->|_];
             [ intros [= <-]; tauto | ]
         end.
  discriminate.
Qed.

Lemma py_gt0_le0 (p : num) : py_gt0 p = true -> py_le0 p = false.
Proof.
  destruct p as [z|x]; cbn; [|apply ltb0_leb0].
  intros Hz. apply Z.ltb_lt in Hz. apply Z.leb_gt. exact Hz.
Qed.

(** What [calculate_dividend_yield] evaluates to on a catalog symbol and a
    price that coerces to [p]. *)
Lemma dividend_yield_eval (symbol : string) (price : pyvalue) (p : num)
      (stock : Stock) (w : World) :
  dict_get exchange_data symbol = Some stock ->
  str_to_float price w = (Return p, w) ->
  calculate_dividend_yield symbol price w =
  (if py_le0 p then Raise InvalidPrice
   else if type stock =? "Common"
        then py_div (last_dividend stock) p
        else match fixed_dividend stock with
             | Some fd => x <~ py_mul fd (par_value stock) ;; py_div x p
             | None => Raise TypeError
             end,
   w).
Proof.
  intros Hg Hp.
  unfold calculate_dividend_yield, bind.
  rewrite (validate_known symbol w (catalog_get_mem _ _ Hg)), Hp.
  unfold getitem. rewrite Hg. unfold ret at 1.
  destruct (py_le0 p); [reflexivity|].
  destruct (type stock =? "Common"); [reflexivity|].
  destruct (fixed_dividend stock) as [fd|]; cbn [mul_opt]; [|reflexivity].
  unfold lift, truediv, lift. now destruct (py_mul fd (par_value stock)).
Qed.

(** The dividend of a stock of the catalog, an int from 0 to 200, and the
    yield it gives at a price that is not [<= 0]: the division is in
    range. *)
Lemma dividend_yield_returns (symbol : string) (price : pyvalue) (p : num)
      (stock : Stock) (w : World) :
  dict_get exchange_data symbol = Some stock ->
  str_to_float price w = (Return p, w) ->
  py_le0 p = false ->
  exists a y,
    (0 <= a <= 200)%Z
    /\ (symbol = "TEA" -> a = 0%Z)
    /\ py_div (PyInt a) p = Return y
    /\ calculate_dividend_yield symbol price w = (Return y, w)
    /\ (type stock = "Common" -> last_dividend stock = PyInt a)
    /\ (type stock = "Preferred" ->
        exists fd, fixed_dividend stock = Some fd
                   /\ py_mul fd (par_value stock) = Return (PyInt a)).
Proof.
  intros Hg Hp Hpos. rewrite (dividend_yield_eval _ _ _ _ _ Hg Hp), Hpos.
  assert (Hdiv : forall a, (0 <= a <= 200)%Z ->
                           exists y, py_div (PyInt a) p = Return y).
  { intros a Ha. destruct p as [z|x]; cbn [py_le0] in Hpos.
    - apply Z.leb_gt in Hpos. eexists. now apply py_div_small_int.
    - eexists. apply py_div_small_float; [exact Ha|].
      now apply leb0_false_eqb0. }
  destruct (catalog_cases _ _ Hg) as [[-> ->]|[[-> ->]|[[-> ->]|[[-> ->]|[-> ->]]]]];
    cbn [type last_dividend fixed_dividend par_value];
    try rewrite String.eqb_refl;
    try change ("Preferred" =? "Common") with false;
    cbn [py_mul obind]; try change (2 * 100)%Z with 200%Z;
    [ destruct (Hdiv 0%Z ltac:(lia)) as [y Hy]; exists 0%Z, y
    | destruct (Hdiv 8%Z ltac:(lia)) as [y Hy]; exists 8%Z, y
    | destruct (Hdiv 23%Z ltac:(lia)) as [y Hy]; exists 23%Z, y
    | destruct (Hdiv 200%Z ltac:(lia)) as [y Hy]; exists 200%Z, y
    | destruct (Hdiv 13%Z ltac:(lia)) as [y Hy]; exists 13%Z, y ];
    (split; [lia|]); (split; [try discriminate; reflexivity|]);
    (split; [exact Hy|]); (split; [now rewrite Hy|]);
    (split; [try discriminate; reflexivity|]); try discriminate.
  intros _. now exists (PyInt 2).
Qed.

(** A division fails with [ZeroDivisionError] or [OverflowError], and with
    no other exception. *)
Lemma py_div_raises_any (a b : num) (e : exn) :
  py_div a b = Raise e -> e = ZeroDivisionError \/ e = OverflowError.
Proof.
  destruct (py_eq0 b) eqn:Hb; [|intros Hr; right; exact (py_div_raises _ _ _ Hb Hr)].
  destruct a as [x|x], b as [y|y]; cbn [py_div py_eq0] in *;
    try rewrite Hb;
    try (destruct (as_float _) eqn:Ha; cbn [obind];
         [|intros [= <-]; right; now apply as_float_raises in Ha]);
    try (destruct (as_float _) eqn:Hy in |- *; cbn [obind];
         [|intros [= <-]; right; now apply as_float_raises in Hy]);
    try (intros [= <-]; now left).
Qed.

(** C3. On a catalog symbol and a price that coerces to [p],
    [calculate_dividend_yield] fails with InvalidPrice exactly when [p <= 0];
    for [p > 0] it returns [last_dividend / p] for a Common security and
    [fixed_dividend * par_value / p] for a Preferred one, the stored
    [fixed_dividend] taken as it is and the quotient not rounded: the
    value is the one Python's [/] and [*] give on these numbers, ints or
    floats, and the division is in range. *)
Theorem dividend_yield_spec (symbol : string) (price : pyvalue) (p : num)
        (stock : Stock) (w : World) :
  dict_get exchange_data symbol = Some stock ->
  str_to_float price w = (Return p, w) ->
  (fst (calculate_dividend_yield symbol price w) = Raise InvalidPrice
   <-> py_le0 p = true)
  /\ (py_gt0 p = true ->
      (type stock = "Common" \/ type stock = "Preferred")
      /\ (type stock = "Common" ->
          exists y,
            py_div (last_dividend stock) p = Return y
            /\ calculate_dividend_yield symbol price w = (Return y, w))
      /\ (type stock = "Preferred" ->
          exists fd x y,
            fixed_dividend stock = Some fd
            /\ py_mul fd (par_value stock) = Return x
            /\ py_div x p = Return y
            /\ calculate_dividend_yield symbol price w = (Return y, w))).
Proof.
  intros Hg Hp. split.
  - rewrite (dividend_yield_eval _ _ _ _ _ Hg Hp). cbn [fst].
    destruct (py_le0 p); [tauto|].
    split; [|discriminate]. intros Hr. exfalso.
    destruct (type stock =? "Common").
    + apply py_div_raises_any in Hr. destruct Hr; discriminate.
    + destruct (fixed_dividend stock) as [fd|]; [|discriminate].
      destruct (py_mul fd (par_value stock)) eqn:Hm; cbn [obind] in Hr.
      * apply py_div_raises_any in Hr. destruct Hr; discriminate.
      * injection Hr as ->. apply py_mul_raises in Hm. discriminate.
  - intros Hpos.
    destruct (dividend_yield_returns _ _ _ _ _ Hg Hp (py_gt0_le0 _ Hpos))
      as (a & y & _ & _ & Hdiv & Hy & Hcommon & Hpref).
    split; [|split].
    + destruct (catalog_cases _ _ Hg) as [[_ ->]|[[_ ->]|[[_ ->]|[[_ ->]|[_ ->]]]]];
        cbn; tauto.
    + intros Ht. exists y. rewrite (Hcommon Ht). tauto.
    + intros Ht. destruct (Hpref Ht) as (fd & Hfd & Hm).
      exists fd, (PyInt a), y. tauto.
Qed.

(** What [calculate_pe_ratio] evaluates to on a catalog symbol and a price
    that coerces to [p]. *)
Lemma pe_ratio_eval (symbol : string) (price : pyvalue) (p : num)
      (stock : Stock) (w : World) :
  dict_get exchange_data symbol = Some stock ->
  str_to_float price w = (Return p, w) ->
  calculate_pe_ratio symbol price w =
  (match fst (calculate_dividend_yield symbol price w) with
   | Return y =>
       if (y =? 0)%float then Raise DivisionByZero else py_div p (PyFloat y)
   | Raise e => Raise e
   end,
   w).
Proof.
  intros Hg Hp. unfold calculate_pe_ratio, bind.
  rewrite (validate_known symbol w (catalog_get_mem _ _ Hg)), Hp.
  rewrite (dividend_yield_eval symbol (PyNum p) p stock w Hg eq_refl).
  rewrite (dividend_yield_eval symbol price p stock w Hg Hp). cbn [fst].
  destruct (if py_le0 p then _ else _) as [y|e]; [|reflexivity].
  destruct (y =? 0)%float; reflexivity.
Qed.

(** A number divided by a float that is not zero. *)
Lemma py_div_by_float (p : num) (x y : float) :
  as_float p = Return x -> (y =? 0)%float = false ->
  py_div p (PyFloat y) = Return (x / y)%float.
Proof.
  intros Hx Hy. destruct p as [z|x0]; cbn [py_div as_float] in *;
    rewrite Hx; cbn [obind py_eq0]; now rewrite Hy.
Qed.

(** The yield of TEA, whose dividend is 0, is a zero at every positive
    price. *)
Lemma zero_dividend_yield (p : num) (y : float) :
  py_gt0 p = true -> py_div (PyInt 0) p = Return y -> (y =? 0)%float = true.
Proof.
  intros Hpos. destruct p as [z|x]; cbn [py_gt0] in Hpos.
  - apply Z.ltb_lt in Hpos. rewrite py_div_small_int by lia.
    intros [= <-]. destruct z as [|q|q]; try lia. reflexivity.
  - rewrite py_div_small_float
      by (try lia; exact (leb0_false_eqb0 _ (ltb0_leb0 _ Hpos))).
    intros [= <-]. exact (zero_div_pos x Hpos).
Qed.

(** C4 (amended). On a catalog symbol and a positive coerced price [p],
    with [y] the dividend yield [calculate_dividend_yield] computes,
    [calculate_pe_ratio] fails with DivisionByZero exactly when [y == 0];
    otherwise, when [p] is a float or an int that a float can hold, [x]
    being that float, it returns [x / y]; for TEA the yield is 0 at every
    positive price, so it fails with DivisionByZero. *)
Theorem pe_ratio_spec (symbol : string) (price : pyvalue) (p : num)
        (stock : Stock) (w : World) :
  dict_get exchange_data symbol = Some stock ->
  str_to_float price w = (Return p, w) ->
  py_gt0 p = true ->
  exists y,
    calculate_dividend_yield symbol price w = (Return y, w)
    /\ (fst (calculate_pe_ratio symbol price w) = Raise DivisionByZero
        <-> (y =? 0)%float = true)
    /\ ((y =? 0)%float = false ->
        forall x, as_float p = Return x ->
                  calculate_pe_ratio symbol price w = (Return (x / y)%float, w))
    /\ (symbol = "TEA" ->
        calculate_pe_ratio symbol price w = (Raise DivisionByZero, w)).
Proof.
  intros Hg Hp Hpos.
  destruct (dividend_yield_returns _ _ _ _ _ Hg Hp (py_gt0_le0 _ Hpos))
    as (a & y & _ & Htea & Hdiv & Hy & _).
  exists y. rewrite (pe_ratio_eval _ _ _ _ _ Hg Hp), Hy. cbn [fst].
  split; [reflexivity|]. split; [|split].
  - destruct (y =? 0)%float eqn:Hy0; [tauto|].
    split; [|discriminate]. intros Hr.
    apply py_div_raises_any in Hr. destruct Hr; discriminate.
  - intros Hy0 x Hx. rewrite Hy0. now rewrite (py_div_by_float p x y Hx Hy0).
  - intros Hs. rewrite (Htea Hs) in Hdiv.
    now rewrite (zero_dividend_yield p y Hpos Hdiv).
Qed.

End Ratios.

(** ** Volume-weighted price *)

Section VolumeWeighted.
Context `{PyRuntime}.

(** The loop passes over the trades outside the window. *)
Lemma vws_loop (start : Z) (l : list Trade) (acc : num * num) :
  ofold (vws_step start) l acc = ofold vws_add (recent_trades start l) acc.
Proof.
  revert acc. induction l as [|t l IH]; intros acc; [reflexivity|].
  cbn [ofold recent_trades filter]. unfold vws_step at 1, in_window.
  destruct (timestamp t >=? start)%Z; cbn [ofold obind].
  - destruct (vws_add acc t) as [acc'|e]; cbn [obind]; [apply IH | reflexivity].
  - apply IH.
Qed.


(** The loop fails only with [OverflowError]. *)
Lemma vws_add_raises (l : list Trade) (acc : num * num) (e : exn) :
  ofold vws_add l acc = Raise e -> e = OverflowError.
Proof.
  revert acc. induction l as [|t l IH]; intros acc; cbn [ofold];
    [discriminate|].
  unfold vws_add at 1.
  destruct (py_mul (traded_price t) (quantity t)) as [x|e0] eqn:Hm;
    cbn [obind]; [|intros [= <-]; exact (py_mul_raises _ _ _ Hm)].
  destruct (py_add (fst acc) x) as [a'|e0] eqn:Ha; cbn [obind];
    [|intros [= <-]; exact (py_add_raises _ _ _ Ha)].
  destruct (py_add (snd acc) (quantity t)) as [q'|e0] eqn:Hq; cbn [obind];
    [|intros [= <-]; exact (py_add_raises _ _ _ Hq)].
  apply IH.
Qed.

(** What [calculate_vws_price] evaluates to on a catalog symbol. *)
Lemma vws_eval (symbol : string) (w : World) :
  In symbol ["TEA"; "POP"; "ALE"; "GIN"; "JOE"] ->
  calculate_vws_price symbol w =
  (match dict_get (trades w) symbol with
   | None => Return (PyInt 0)
   | Some l =>
       totals <~ ofold vws_add (recent_trades (window_start w) l)
                       (PyInt 0, PyInt 0) ;;
       if py_eq0 (snd totals) then Raise NoTradesInWindow
       else r <~ py_div (fst totals) (snd totals) ;; Return (PyFloat r)
   end,
   tick w).
Proof.
  intros Hin. rewrite <- catalog_keys in Hin. apply dict_mem_In in Hin.
  unfold calculate_vws_price, bind.
  rewrite (validate_known symbol w Hin).
  unfold datetime_now, get_trades. cbn [trades].
  rewrite dict_mem_get. unfold getitem.
  destruct (dict_get (trades w) symbol) as [l|]; [|reflexivity].
  unfold ret at 1. unfold lift at 1. rewrite vws_loop. fold (window_start w).
  destruct (ofold vws_add _ _) as [[a q]|e]; cbn [obind fst snd];
    [|reflexivity].
  destruct (py_eq0 q); [reflexivity|].
  unfold truediv, lift. destruct (py_div a q); reflexivity.
Qed.



(** What [calculate_vws_price] returns is a float, or the int 0. *)
Lemma vws_price_returns (symbol : string) (w w' : World) (v : num) :
  calculate_vws_price symbol w = (Return v, w') ->
  v = PyInt 0 \/ exists x, v = PyFloat x.
Proof.
  destruct (dict_mem symbol exchange_data) eqn:Hm.
  - apply dict_mem_In in Hm. rewrite catalog_keys in Hm.
    rewrite (vws_eval symbol w Hm).
    destruct (dict_get (trades w) symbol) as [l|]; [|intros [= <- _]; now left].
    destruct (ofold vws_add _ _) as [[a q]|e]; cbn [obind fst snd];
      [|discriminate].
    destruct (py_eq0 q); [discriminate|].
    destruct (py_div a q) as [r|e]; cbn [obind]; [|discriminate].
    intros [= <- _]. right. now exists r.
  - unfold calculate_vws_price, bind.
    rewrite (validate_unknown symbol w Hm). discriminate.
Qed.

End VolumeWeighted.

(** ** The trade store: what each method does to it *)

Section Frame.
Context `{PyRuntime}.

Lemma keeps_ret {A} (a : A) : keeps_trades (ret a).
Proof. intros w. reflexivity. Qed.

Lemma keeps_raise {A} (e : exn) : keeps_trades (@raise A e).
Proof. intros w. reflexivity. Qed.

Lemma keeps_bind {A B} (m : M A) (f : A -> M B) :
  keeps_trades m -> (forall a, keeps_trades (f a)) -> keeps_trades (bind m f).
Proof.
  intros Hm Hf w. unfold bind. specialize (Hm w).
  destruct (m w) as [[a|e] w']; cbn in *; [|exact Hm].
  now rewrite Hf.
Qed.

Lemma keeps_if {A} (b : bool) (m1 m2 : M A) :
  keeps_trades m1 -> keeps_trades m2 -> keeps_trades (if b then m1 else m2).
Proof. now destruct b. Qed.

Lemma keeps_get_trades : keeps_trades get_trades.
Proof. intros w. reflexivity. Qed.

Lemma keeps_datetime_now : keeps_trades datetime_now.
Proof. intros w. reflexivity. Qed.

Lemma keeps_getitem {V} (d : dict V) (k : string) : keeps_trades (getitem d k).
Proof. unfold getitem. destruct (dict_get d k); [apply keeps_ret | apply keeps_raise]. Qed.

Lemma keeps_lift {A} (o : outcome A) : keeps_trades (lift o).
Proof. intros w. reflexivity. Qed.

Lemma keeps_truediv (x y : num) : keeps_trades (truediv x y).
Proof. apply keeps_lift. Qed.

Lemma keeps_mul_opt (a : option num) (b : num) : keeps_trades (mul_opt a b).
Proof. destruct a; [apply keeps_lift | apply keeps_raise]. Qed.

Lemma keeps_float_pow (x y : float) : keeps_trades (float_pow x y).
Proof.
  unfold float_pow.
  repeat first [ apply keeps_if | apply keeps_ret | apply keeps_raise ].
  destruct (libm_pow _ _); [apply keeps_ret | apply keeps_raise].
Qed.

Lemma keeps_py_pow (a : num) (e : float) : keeps_trades (py_pow a e).
Proof.
  unfold py_pow. apply keeps_bind; [apply keeps_lift | intros v].
  apply keeps_float_pow.
Qed.

Lemma keeps_round3 (v : pynumber) : keeps_trades (round3 v).
Proof. destruct v; [apply keeps_ret | apply keeps_raise]. Qed.

Lemma keeps_foldM {A B} (f : B -> A -> M B) (l : list A) (b : B) :
  (forall b a, keeps_trades (f b a)) -> keeps_trades (foldM f l b).
Proof.
  intros Hf. revert b. induction l as [|a l IH]; intros b; cbn.
  - apply keeps_ret.
  - apply keeps_bind; [apply Hf | exact IH].
Qed.

Lemma keeps_validate_stock_symbol (symbol : string) :
  keeps_trades (validate_stock_symbol symbol).
Proof. apply keeps_if; [apply keeps_raise | apply keeps_ret]. Qed.

Lemma keeps_str_to_float (value : pyvalue) : keeps_trades (str_to_float value).
Proof.
  destruct value as [x|s]; cbn; [apply keeps_ret|].
  destruct (float_of_str s); [apply keeps_ret | apply keeps_raise].
Qed.

Lemma keeps_validate_order (order : string) : keeps_trades (validate_order order).
Proof. apply keeps_if; [apply keeps_raise | apply keeps_ret]. Qed.

Lemma keeps_calculate_dividend_yield (symbol : string) (price : pyvalue) :
  keeps_trades (calculate_dividend_yield symbol price).
Proof.
  unfold calculate_dividend_yield.
  repeat first
    [ apply keeps_validate_stock_symbol | apply keeps_str_to_float
    | apply keeps_getitem | apply keeps_truediv | apply keeps_mul_opt
    | apply keeps_raise | apply keeps_bind; [|intros ?] | apply keeps_if ].
Qed.

Lemma keeps_calculate_pe_ratio (symbol : string) (price : pyvalue) :
  keeps_trades (calculate_pe_ratio symbol price).
Proof.
  unfold calculate_pe_ratio.
  repeat first
    [ apply keeps_validate_stock_symbol | apply keeps_str_to_float
    | apply keeps_calculate_dividend_yield | apply keeps_truediv
    | apply keeps_raise | apply keeps_bind; [|intros ?] | apply keeps_if ].
Qed.

Lemma keeps_calculate_vws_price (symbol : string) :
  keeps_trades (calculate_vws_price symbol).
Proof.
  unfold calculate_vws_price.
  repeat first
    [ apply keeps_validate_stock_symbol | apply keeps_datetime_now
    | apply keeps_get_trades | apply keeps_getitem | apply keeps_ret
    | apply keeps_lift | apply keeps_bind; [|intros ?] | apply keeps_if ].
  match goal with |- keeps_trades (let '(_, _) := ?t in _) => destruct t end.
  apply keeps_if; [apply keeps_raise|].
  apply keeps_bind; [apply keeps_truediv | intros r; apply keeps_ret].
Qed.

Lemma keeps_calculate_gbce : keeps_trades calculate_gbce.
Proof.
  unfold calculate_gbce.
  repeat first
    [ apply keeps_get_trades | apply keeps_truediv | apply keeps_py_pow
    | apply keeps_round3 | apply keeps_ret | apply keeps_lift
    | apply keeps_foldM; intros ? ? | apply keeps_calculate_vws_price
    | apply keeps_bind; [|intros ?] | apply keeps_if ].
Qed.

(** What [record_trade] evaluates to: the failures come before the clock is
    read and the store is touched. *)
Lemma record_trade_eval (symbol : string) (quantity price : pyvalue)
      (order : string) (w : World) :
  record_trade symbol quantity price order w =
  if negb (dict_mem symbol exchange_data) then (Raise UnknownSymbol, w)
  else match str_to_float quantity w with
       | (Raise e, _) => (Raise e, w)
       | (Return q, _) =>
           match str_to_float price w with
           | (Raise e, _) => (Raise e, w)
           | (Return p, _) =>
               if negb (order =? "Buy") && negb (order =? "Sell")
               then (Raise InvalidOrderSide, w)
               else
                 let t := mkTrade (now_of w)
                                  (if order =? "Buy" then "Buy" else "Sell") q p in
                 (Return t,
                  mkWorld (dict_set (trades w) symbol
                                    (trades_of (trades w) symbol ++ [t]))
                          (S (clock_reads w)))
           end
       end.
Proof.
  unfold record_trade, bind, validate_stock_symbol.
  destruct (negb (dict_mem symbol exchange_data)); [reflexivity|].
  unfold ret at 1.
  assert (Hs : forall v, snd (str_to_float v w) = w).
  { intros [x|s]; cbn; [reflexivity|]. now destruct (float_of_str s). }
  pose proof (Hs quantity) as Hq.
  destruct (str_to_float quantity w) as [[q|e] w1]; cbn in Hq; subst w1;
    [|reflexivity].
  pose proof (Hs price) as Hp.
  destruct (str_to_float price w) as [[p|e] w1]; cbn in Hp; subst w1;
    [|reflexivity].
  unfold validate_order.
  destruct (negb (order =? "Buy") && negb (order =? "Sell")); [reflexivity|].
  unfold ret at 1. unfold datetime_now, get_trades. cbn [trades clock_reads].
  fold (now_of w). rewrite dict_mem_get. unfold trades_of, getitem.
  destruct (dict_get (trades w) symbol) as [l|]; reflexivity.
Qed.

(** The effect of [record_trade] on the store. *)
Lemma record_trade_effect (symbol : string) (quantity price : pyvalue)
      (order : string) (w : World) :
  match record_trade symbol quantity price order w with
  | (Return t, w') =>
      dict_get (trades w') symbol = Some (trades_of (trades w) symbol ++ [t])
      /\ (forall s, s <> symbol ->
                    dict_get (trades w') s = dict_get (trades w) s)
      /\ dict_keys (trades w') =
         (if dict_mem symbol (trades w)
          then dict_keys (trades w)
          else dict_keys (trades w) ++ [symbol])
  | (Raise _, w') => trades w' = trades w
  end.
Proof.
  rewrite record_trade_eval.
  destruct (negb (dict_mem symbol exchange_data)); [reflexivity|].
  destruct (str_to_float quantity w) as [[q|e] w1]; [|reflexivity].
  destruct (str_to_float price w) as [[p|e] w1']; [|reflexivity].
  destruct (negb (order =? "Buy") && negb (order =? "Sell")); [reflexivity|].
  cbn [trades]. split; [apply dict_get_set_same|].
  split; [intros s Hs; now apply dict_get_set_other | apply dict_keys_set].
Qed.

(** C9. A [record_trade] that succeeds changes the trade store only by
    putting the one trade it returns at the end of the symbol's list (a
    list of that one trade, under a new last key, when the symbol had none),
    every other symbol's list staying as it was; a [record_trade] that fails
    leaves the store unchanged; and no other method changes the store. *)
Theorem record_trade_frame (symbol : string) (quantity price : pyvalue)
        (order : string) (w : World) :
  (match record_trade symbol quantity price order w with
   | (Return t, w') =>
       dict_get (trades w') symbol = Some (trades_of (trades w) symbol ++ [t])
       /\ (forall s, s <> symbol ->
                     dict_get (trades w') s = dict_get (trades w) s)
       /\ dict_keys (trades w') =
          (if dict_mem symbol (trades w)
           then dict_keys (trades w)
           else dict_keys (trades w) ++ [symbol])
   | (Raise _, w') => trades w' = trades w
   end)
  /\ keeps_trades (validate_stock_symbol symbol)
  /\ keeps_trades (str_to_float price)
  /\ keeps_trades (validate_order order)
  /\ keeps_trades (calculate_dividend_yield symbol price)
  /\ keeps_trades (calculate_pe_ratio symbol price)
  /\ keeps_trades (calculate_vws_price symbol)
  /\ keeps_trades calculate_gbce.
Proof.
  split; [apply record_trade_effect|].
  repeat split;
    auto using keeps_validate_stock_symbol, keeps_str_to_float,
      keeps_validate_order, keeps_calculate_dividend_yield,
      keeps_calculate_pe_ratio, keeps_calculate_vws_price,
      keeps_calculate_gbce.
Qed.

End Frame.

(** ** Invariants of the trade store *)

Section Invariants.
Context `{PyRuntime}.

(** A call other than [record_trade] leaves the store as it was. *)
Lemma exec_trades (c : call) (w : World) :
  trades (exec c w) = trades w
  \/ exists symbol quantity price order t w',
       c = CallRecordTrade symbol quantity price order
       /\ record_trade symbol quantity price order w = (Return t, w')
       /\ exec c w = w'.
Proof.
  destruct c as [s|v|o|s p|s p|s q p o|s|]; cbn [exec];
    try (left;
         first [ apply keeps_validate_stock_symbol | apply keeps_str_to_float
               | apply keeps_validate_order | apply keeps_calculate_dividend_yield
               | apply keeps_calculate_pe_ratio | apply keeps_calculate_vws_price
               | apply keeps_calculate_gbce ]).
  pose proof (record_trade_effect s q p o w) as Hr.
  destruct (record_trade s q p o w) as [[t|e] w'] eqn:E; cbn [snd].
  - right. exists s, q, p, o, t, w'. auto.
  - left. exact Hr.
Qed.

(** A successful [record_trade] is on a symbol of the catalog. *)
Lemma record_trade_symbol (symbol : string) (quantity price : pyvalue)
      (order : string) (w w' : World) (t : Trade) :
  record_trade symbol quantity price order w = (Return t, w') ->
  In symbol (dict_keys exchange_data).
Proof.
  rewrite record_trade_eval. intros Hr. apply dict_mem_In.
  destruct (dict_mem symbol exchange_data); [reflexivity | discriminate].
Qed.

Lemma dict_get_In_keys {V} (d : dict V) (k : string) (v : V) :
  dict_get d k = Some v -> In k (dict_keys d).
Proof.
  intros Hg. apply dict_mem_In. now rewrite dict_mem_get, Hg.
Qed.

(** The keys of a reachable store are pairwise distinct symbols of the
    catalog, and each maps to a non-empty list. *)
Lemma reachable_store (w : World) :
  reachable w ->
  NoDup (dict_keys (trades w))
  /\ incl (dict_keys (trades w)) (dict_keys exchange_data)
  /\ (forall k l, dict_get (trades w) k = Some l -> l <> []).
Proof.
  induction 1 as [|c w Hw (Hnd & Hincl & Hne)].
  - cbn. split; [constructor|]. split; [intros k []|discriminate].
  - destruct (exec_trades c w) as [->|(s & q & p & o & t & w' & -> & Hr & ->)];
      [auto|].
    pose proof (record_trade_effect s q p o w) as Hf. rewrite Hr in Hf.
    destruct Hf as (Hsame & Hother & Hkeys).
    rewrite Hkeys. split; [|split].
    + destruct (dict_mem s (trades w)) eqn:Hm; [exact Hnd|].
      apply dict_mem_false in Hm.
      apply NoDup_app; [exact Hnd | repeat constructor; intros [] |].
      intros k Hk [<-|[]]. contradiction.
    + destruct (dict_mem s (trades w)); [exact Hincl|].
      apply incl_app; [exact Hincl|].
      intros k [<-|[]]. exact (record_trade_symbol _ _ _ _ _ _ _ Hr).
    + intros k l Hg. destruct (String.eqb_spec k s) as [->|Hks].
      * rewrite Hsame in Hg. injection Hg as <-.
        now destruct (trades_of (trades w) s).
      * rewrite (Hother k Hks) in Hg. exact (Hne k l Hg).
Qed.

(** C10. In every world reached from the initial empty store, each key of
    the trade store maps to a non-empty list of trades: a symbol is a key
    exactly when it has at least one recorded trade. *)
Theorem traded_keys_nonempty (w : World) :
  reachable w ->
  (forall k l, dict_get (trades w) k = Some l -> l <> [])
  /\ (forall k, In k (dict_keys (trades w))
                <-> exists t, In t (trades_of (trades w) k)).
Proof.
  intros Hw. destruct (reachable_store w Hw) as (_ & _ & Hne).
  split; [exact Hne|].
  intros k. rewrite <- dict_mem_In, dict_mem_get. unfold trades_of.
  destruct (dict_get (trades w) k) as [l|] eqn:Hg.
  - split; [intros _ | reflexivity].
    destruct l as [|t l]; [now elim (Hne k [] Hg) | exists t; now left].
  - split; [discriminate | intros [t []]].
Qed.

End Invariants.

(** ** Numeric coercion *)

Section Coercion.
Context `{PyRuntime}.

Lemma str_to_float_world (value : pyvalue) (w : World) :
  snd (str_to_float value w) = w.
Proof.
  destruct value as [x|s]; cbn; [reflexivity|]. now destruct (float_of_str s).
Qed.




End Coercion.

(** ** The all-share index *)

Section Index.
Context `{PyRuntime}.

Local Open Scope float_scope.

(** C6. On an empty trade store [calculate_gbce] skips the loop and
    evaluates [1 / len(self.trades.keys())], that is [1 / 0]: the call ends
    with Python's ZeroDivisionError, which is no error that the program
    raises itself; no number is returned, and the world is left as it
    was. *)
Theorem gbce_no_trades (w : World) :
  trades w = [] ->
  calculate_gbce w = (Raise ZeroDivisionError, w)
  /\ (forall x, fst (calculate_gbce w) <> Return x)
  /\ (forall msg, fst (calculate_gbce w) <> Raise (ValueError msg)).
Proof.
  intros Hw.
  assert (Hg : calculate_gbce w = (Raise ZeroDivisionError, w)).
  { unfold calculate_gbce, bind, get_trades. rewrite Hw.
    cbn [dict_truth]. unfold ret at 1. rewrite Hw. reflexivity. }
  rewrite Hg. split; [reflexivity|]. split; discriminate.
Qed.

Lemma float_pow_world (x y : float) (w : World) :
  snd (float_pow x y w) = w.
Proof.
  unfold float_pow, ret, raise.
  repeat match goal with
         | |- context [if ?b then _ else _] => destruct b
         | |- context [match libm_pow ?a ?b with _ => _ end] =>
             destruct (libm_pow a b)
         end; reflexivity.
Qed.

Lemma py_pow_world (a : num) (e : float) (w : World) :
  snd (py_pow a e w) = w.
Proof.
  unfold py_pow, bind, lift.
  destruct (as_float a); [apply float_pow_world | reflexivity].
Qed.

(** The loop of [calculate_gbce] over symbols whose prices are [vs]: no
    multiplication fails, and the loop returns the product. *)
Lemma gbce_loop (w w' : World) (ks : list string) (vs : list num) (a : num) :
  vws_run w ks vs w' ->
  one_zero_or_float a ->
  exists P,
    ofold py_mul vs a = Return P
    /\ one_zero_or_float P
    /\ foldM (fun total symbol =>
                v <- calculate_vws_price symbol ;; lift (py_mul total v))
             ks a w
       = (Return P, w').
Proof.
  intros Hrun. revert a.
  induction Hrun as [w|w k ks v vs w1 w2 Hv Hrun IH]; intros a Ha.
  - exists a. repeat split. exact Ha.
  - destruct (py_mul_one_zero_or_float a v Ha (vws_price_returns _ _ _ _ Hv))
      as (c & Hc & Hc').
    destruct (IH c Hc') as (P & HP & HP' & Hloop).
    exists P. cbn [ofold foldM]. rewrite Hc. cbn [obind].
    split; [exact HP|]. split; [exact HP'|].
    unfold bind at 1. unfold bind at 1. rewrite Hv. unfold lift at 1.
    rewrite Hc. exact Hloop.
Qed.

Lemma vws_run_length (w w' : World) (ks : list string) (vs : list num) :
  vws_run w ks vs w' -> List.length vs = List.length ks.
Proof. induction 1; cbn; congruence. Qed.

Lemma vws_run_trades (w w' : World) (ks : list string) (vs : list num) :
  vws_run w ks vs w' -> trades w' = trades w.
Proof.
  induction 1 as [w|w k ks v vs w1 w2 Hv Hrun IH]; [reflexivity|].
  rewrite IH. pose proof (keeps_calculate_vws_price k w) as Hk.
  now rewrite Hv in Hk.
Qed.

(** A symbol whose price is returned is a symbol of the catalog. *)
Lemma vws_run_catalog (w w' : World) (ks : list string) (vs : list num) :
  vws_run w ks vs w' -> incl ks (dict_keys exchange_data).
Proof.
  induction 1 as [w|w k ks v vs w1 w2 Hv Hrun IH]; [intros k []|].
  intros k' [<-|Hk']; [|now apply IH].
  apply dict_mem_In. destruct (dict_mem k exchange_data) eqn:Hm; [reflexivity|].
  unfold calculate_vws_price, bind in Hv.
  rewrite (validate_unknown k w Hm) in Hv. discriminate.
Qed.

(** [1 / len(...)] of a store that has a key. *)
Lemma root_exponent_eval (n : nat) (w : World) :
  (1 <= n)%nat ->
  truediv (PyInt 1) (PyInt (Z.of_nat n)) w = (Return (root_exponent n), w).
Proof.
  intros Hn. unfold truediv, lift, root_exponent.
  rewrite py_div_small_int by lia. reflexivity.
Qed.

(** What [calculate_gbce] evaluates to once every price is returned. *)
Lemma gbce_eval (w w' : World) (vs : list num) :
  trades w <> [] ->
  vws_run w (dict_keys (trades w)) vs w' ->
  exists P,
    product vs = Return P
    /\ calculate_gbce w =
       (gbce <- py_pow P (root_exponent (List.length (dict_keys (trades w)))) ;;
        round3 gbce) w'.
Proof.
  intros Hne Hrun.
  destruct (gbce_loop w w' _ vs (PyInt 1) Hrun (or_introl eq_refl))
    as (P & HP & _ & Hloop).
  exists P. split; [exact HP|].
  unfold calculate_gbce. unfold bind at 1. unfold get_trades at 1.
  assert (Ht : dict_truth (trades w) = true)
    by (destruct (trades w); [congruence | reflexivity]).
  rewrite Ht. unfold bind at 1. rewrite Hloop.
  unfold bind at 1. unfold get_trades at 1.
  rewrite (vws_run_trades _ _ _ _ Hrun).
  unfold bind at 1. rewrite root_exponent_eval; [reflexivity|].
  destruct (trades w); [congruence | cbn; lia].
Qed.

Lemma float_one_facts :
  (1 =? 0) = false /\ is_nan 1 = false /\ is_infinity 1 = false
  /\ (0 <? 1) = true /\ (1 <? 0) = false
  /\ is_odd_integer 1 = true /\ is_integral 1 = true.
Proof. repeat split; reflexivity. Qed.

(** [x ** 1.0] is [x], given that the C library's [pow(x, 1)] is [x]. *)
Lemma float_pow_one (v : float) (w : World) :
  (forall x, libm_pow x 1 = Return x) ->
  float_pow v 1 w = (Return (PyReal v), w).
Proof.
  intros Hlibm. unfold float_pow.
  destruct float_one_facts as (-> & -> & -> & -> & -> & -> & ->).
  destruct (is_nan v); [reflexivity|].
  destruct (is_infinity v); [reflexivity|].
  destruct (v =? 0); [reflexivity|].
  rewrite andb_false_r, andb_true_r.
  destruct (v <? 0).
  - destruct (- v =? 1) eqn:E.
    + apply eqb_one_eq in E. rewrite <- (float_opp_involutive v), E.
      reflexivity.
    + rewrite Hlibm, float_opp_involutive. reflexivity.
  - destruct (v =? 1) eqn:E.
    + apply eqb_one_eq in E. now subst v.
    + rewrite Hlibm. reflexivity.
Qed.

(** [x ** y] is complex exactly when [x] is a negative finite number and
    [y] is a finite number that is not an integer. *)
Lemma float_pow_complex (x y : float) (w : World) :
  fst (float_pow x y w) = Return PyComplex
  <-> (is_nan x = false /\ is_infinity x = false /\ (x <? 0) = true)
      /\ (is_nan y = false /\ is_infinity y = false /\ is_integral y = false).
Proof.
  unfold float_pow, ret, raise.
  destruct (y =? 0) eqn:Hy0.
  { split; [discriminate|]. intros (_ & _ & _ & Hint). exfalso.
    revert Hy0 Hint. unfold is_integral.
    rewrite FloatAxioms.eqb_spec, Prim2SF_zero. unfold SFeqb.
    destruct (Prim2SF y) as [s|s| |s m e]; cbn; try discriminate;
      destruct s; discriminate. }
  destruct (is_nan x); [split; [discriminate | intros [[? _] _]; discriminate]|].
  destruct (is_nan y);
    [split; [discriminate | intros [_ [? _]]; discriminate]|].
  destruct (is_infinity y).
  { split; [|intros [_ (_ & ? & _)]; discriminate].
    destruct (abs x =? 1); [discriminate|].
    destruct (Bool.eqb _ _); discriminate. }
  destruct (is_infinity x).
  { split; [|intros [(_ & ? & _) _]; discriminate].
    destruct (0 <? y); discriminate. }
  destruct (x =? 0) eqn:Hx0.
  { split; [destruct (y <? 0); discriminate|].
    intros [(_ & _ & Hneg) _]. exfalso. revert Hx0 Hneg.
    rewrite FloatAxioms.eqb_spec, FloatAxioms.ltb_spec, Prim2SF_zero.
    unfold SFeqb, SFltb.
    destruct (SFcompare (Prim2SF x) (S754_zero false)) as [[| |]|];
      discriminate. }
  destruct (x <? 0), (is_integral y); cbn [andb negb].
  - split; [|intros [_ (_ & _ & ?)]; discriminate].
    destruct (- x =? 1); [discriminate|].
    destruct (libm_pow (- x) y); discriminate.
  - split; [intros _; tauto | reflexivity].
  - split; [|intros [(_ & _ & ?) _]; discriminate].
    destruct (x =? 1); [discriminate|].
    destruct (libm_pow x y); discriminate.
  - split; [|intros [(_ & _ & ?) _]; discriminate].
    destruct (x =? 1); [discriminate|].
    destruct (libm_pow x y); discriminate.
Qed.

(** The index when every traded symbol's volume-weighted price is
    returned: [calculate_gbce] evaluates [product ** (1 / n)], where
    [product] is the product of the prices of exactly the keys of the trade
    store and [n] their number; when that power is a float, it returns the
    power rounded to 3 decimals (half to even); when it is complex, the call
    ends with TypeError.  With exactly one traded symbol it returns that
    symbol's volume-weighted price rounded to 3 decimals. *)
Lemma gbce_geometric_mean (w w' : World) (vs : list num) :
  trades w <> [] ->
  vws_run w (dict_keys (trades w)) vs w' ->
  exists P,
    product vs = Return P
    /\ (forall g,
          fst (py_pow P (root_exponent (List.length (dict_keys (trades w)))) w')
          = Return (PyReal g) ->
          calculate_gbce w = (Return (float_round3 g), w'))
    /\ (fst (py_pow P (root_exponent (List.length (dict_keys (trades w)))) w')
        = Return PyComplex ->
        calculate_gbce w = (Raise TypeError, w'))
    /\ ((forall x, libm_pow x 1 = Return x) ->
        forall v, vs = [PyFloat v] ->
                  calculate_gbce w = (Return (float_round3 v), w')).
Proof.
  intros Hne Hrun. destruct (gbce_eval w w' vs Hne Hrun) as (P & HP & ->).
  exists P. split; [exact HP|]. unfold bind.
  pose proof (py_pow_world P
    (root_exponent (List.length (dict_keys (trades w)))) w') as Hw.
  split; [|split].
  - intros g Hg. destruct (py_pow _ _ w') as [r w1]; cbn in *; subst.
    reflexivity.
  - intros Hg. destruct (py_pow _ _ w') as [r w1]; cbn in *; subst.
    reflexivity.
  - intros Hlibm v ->. clear Hw.
    rewrite <- (vws_run_length _ _ _ _ Hrun). cbn [List.length].
    change (root_exponent 1) with 1.
    assert (HPv : P = PyFloat v).
    { revert HP. unfold product. cbn [ofold py_mul as_float].
      change (float_of_int 1) with (Return 1). cbn [obind].
      rewrite float_mul_1_l. now intros [= <-]. }
    subst P. unfold py_pow, bind, lift. cbn [as_float].
    rewrite (float_pow_one v w' Hlibm). reflexivity.
Qed.

(** The loop of [calculate_gbce] stops at the first price that is not
    returned. *)
Lemma gbce_loop_raise (w w1 w2 : World) (ks1 ks2 : list string) (k : string)
      (vs : list num) (a : num) (e : exn) :
  vws_run w ks1 vs w1 ->
  one_zero_or_float a ->
  calculate_vws_price k w1 = (Raise e, w2) ->
  foldM (fun total symbol =>
           v <- calculate_vws_price symbol ;; lift (py_mul total v))
        (ks1 ++ k :: ks2) a w
  = (Raise e, w2).
Proof.
  intros Hrun Ha Hk. revert a Ha.
  induction Hrun as [w|w k0 ks v vs w0 w1 Hv Hrun IH]; intros a Ha.
  - cbn [app foldM]. unfold bind at 1. unfold bind at 1. now rewrite Hk.
  - destruct (py_mul_one_zero_or_float a v Ha (vws_price_returns _ _ _ _ Hv))
      as (c & Hc & Hc').
    cbn [app foldM]. unfold bind at 1. unfold bind at 1. rewrite Hv.
    unfold lift at 1. rewrite Hc. now apply IH.
Qed.

End Index.

(** ** Recording trades *)

Section Recording.
Context `{PyRuntime}.

(** X1. [record_trade] makes its checks in a fixed order and fails at the
    first that does not pass, leaving the world as it was: the symbol
    (UnknownSymbol), the quantity, the price (InvalidNumericFormat), the
    order (InvalidOrderSide).  When all pass it takes one clock reading and
    returns the trade stamped with it, holding the coerced quantity and
    price and the order as given. *)
Theorem record_trade_outcome (symbol : string) (quantity price : pyvalue)
        (order : string) (w : World) :
  (~ In symbol ["TEA"; "POP"; "ALE"; "GIN"; "JOE"] ->
   record_trade symbol quantity price order w = (Raise UnknownSymbol, w))
  /\ (In symbol ["TEA"; "POP"; "ALE"; "GIN"; "JOE"] ->
      (forall e, fst (str_to_float quantity w) = Raise e ->
                 record_trade symbol quantity price order w = (Raise e, w))
      /\ (forall q, fst (str_to_float quantity w) = Return q ->
          (forall e, fst (str_to_float price w) = Raise e ->
                     record_trade symbol quantity price order w = (Raise e, w))
          /\ (forall p, fst (str_to_float price w) = Return p ->
              (order <> "Buy" -> order <> "Sell" ->
               record_trade symbol quantity price order w
               = (Raise InvalidOrderSide, w))
              /\ (order = "Buy" \/ order = "Sell" ->
                  record_trade symbol quantity price order w
                  = (Return (mkTrade (now_of w) order q p),
                     mkWorld (dict_set (trades w) symbol
                                (trades_of (trades w) symbol
                                 ++ [mkTrade (now_of w) order q p]))
                             (S (clock_reads w))))))).
Proof.
  rewrite <- catalog_keys, record_trade_eval. split.
  - intros Hout. apply dict_mem_false in Hout. now rewrite Hout.
  - intros Hin. apply dict_mem_In in Hin. rewrite Hin. cbn [negb].
    destruct (str_to_float quantity w) as [[q|e] w1]; cbn [fst]; split;
      try discriminate; [|intros e' [= <-]; reflexivity].
    intros q' [= <-].
    destruct (str_to_float price w) as [[p|e] w2]; cbn [fst]; split;
      try discriminate; [|intros e' [= <-]; reflexivity].
    intros p' [= <-]. split.
    + intros Hb Hs. apply String.eqb_neq in Hb, Hs. now rewrite Hb, Hs.
    + intros [-> | ->]; reflexivity.
Qed.


(** A successful [record_trade] stamps its trade with the reading it takes,
    and takes exactly that one. *)
Lemma record_trade_success (symbol : string) (quantity price : pyvalue)
      (order : string) (w w' : World) (t : Trade) :
  record_trade symbol quantity price order w = (Return t, w') ->
  timestamp t = now_of w
  /\ clock_reads w' = S (clock_reads w)
  /\ trades w' = dict_set (trades w) symbol (trades_of (trades w) symbol ++ [t]).
Proof.
  rewrite record_trade_eval.
  destruct (negb (dict_mem symbol exchange_data)); [discriminate|].
  destruct (str_to_float quantity w) as [[q|e] w1]; [|discriminate].
  destruct (str_to_float price w) as [[p|e] w2]; [|discriminate].
  destruct (negb (order =? "Buy") && negb (order =? "Sell")); [discriminate|].
  intros [= <- <-]. repeat split.
Qed.

(** The list of a symbol after a call: what it was, then the trade the call
    recorded for that symbol, if any. *)
Lemma exec_trades_of (c : call) (w : World) (symbol : string) :
  trades_of (trades (exec c w)) symbol
  = trades_of (trades w) symbol ++ recorded [c] w symbol.
Proof.
  cbn [recorded]. rewrite app_nil_r.
  destruct c as [s|v|o|s p|s p|s q p o|s|]; cbn [exec];
    try (rewrite app_nil_r; f_equal;
         first [ apply keeps_validate_stock_symbol | apply keeps_str_to_float
               | apply keeps_validate_order | apply keeps_calculate_dividend_yield
               | apply keeps_calculate_pe_ratio | apply keeps_calculate_vws_price
               | apply keeps_calculate_gbce ]).
  pose proof (record_trade_effect s q p o w) as Hr.
  destruct (record_trade s q p o w) as [[t|e] w'] eqn:E; cbn [snd].
  - destruct Hr as (Hsame & Hother & _). unfold trades_of at 1.
    destruct (String.eqb_spec s symbol) as [->|Hne].
    + now rewrite Hsame.
    + rewrite (Hother symbol (not_eq_sym Hne)), app_nil_r. reflexivity.
  - rewrite Hr, app_nil_r. reflexivity.
Qed.

(** X2. The list a symbol has in the store after any sequence of calls is
    the list it had before, followed by the trades that the successful
    [record_trade] calls on that symbol returned, in the order of the
    calls: trades are only ever added, at the end, and neither changed nor
    removed.  From the initial world the store holds exactly the recorded
    trades. *)
Theorem store_is_history (cs : list call) (w : World) (symbol : string) :
  trades_of (trades (run cs w)) symbol
  = trades_of (trades w) symbol ++ recorded cs w symbol
  /\ trades_of (trades (run cs init)) symbol = recorded cs init symbol.
Proof.
  assert (Hgen : forall cs w,
             trades_of (trades (run cs w)) symbol
             = trades_of (trades w) symbol ++ recorded cs w symbol).
  { clear cs w. induction cs as [|c cs IH]; intros w.
    - cbn. now rewrite app_nil_r.
    - cbn [run]. rewrite IH, exec_trades_of.
      cbn [recorded]. now rewrite app_nil_r, app_assoc. }
  split; [apply Hgen|]. now rewrite Hgen.
Qed.

Lemma run_app (cs1 cs2 : list call) (w : World) :
  run (cs1 ++ cs2) w = run cs2 (run cs1 w).
Proof. revert w. induction cs1 as [|c cs1 IH]; intros w; cbn; auto. Qed.

(** The reachable worlds are those that sequences of calls lead to. *)
Lemma reachable_iff_run (w : World) :
  reachable w <-> exists cs, w = run cs init.
Proof.
  split.
  - induction 1 as [|c w Hw [cs ->]].
    + now exists [].
    + exists (cs ++ [c]). now rewrite run_app.
  - intros [cs ->]. induction cs as [|c cs IH] using rev_ind.
    + constructor.
    + rewrite run_app. cbn. now constructor.
Qed.

(** X3. In every reachable world the keys of the trade store are pairwise
    distinct symbols of the catalog, so there are at most five of them. *)
Theorem reachable_keys (w : World) :
  reachable w ->
  NoDup (dict_keys (trades w))
  /\ (forall k, In k (dict_keys (trades w)) ->
                In k ["TEA"; "POP"; "ALE"; "GIN"; "JOE"])
  /\ (List.length (dict_keys (trades w)) <= 5)%nat.
Proof.
  intros Hw. destruct (reachable_store w Hw) as (Hnd & Hincl & _).
  split; [exact Hnd|]. split; [exact Hincl|].
  change 5%nat with (List.length (dict_keys exchange_data)).
  now apply NoDup_incl_length.
Qed.

End Recording.

(** ** The methods that only compute *)

Section Pure.
Context `{PyRuntime}.

Lemma only_computes_lift {A} (o : outcome A) : only_computes (lift o).
Proof. now exists o. Qed.

Lemma only_computes_ret {A} (a : A) : only_computes (ret a).
Proof. now exists (Return a). Qed.

Lemma only_computes_raise {A} (e : exn) : only_computes (@raise A e).
Proof. now exists (Raise e). Qed.

Lemma only_computes_bind {A B} (m : M A) (f : A -> M B) :
  only_computes m -> (forall a, only_computes (f a)) ->
  only_computes (bind m f).
Proof.
  intros [[a|e] Hm] Hf; unfold bind.
  - destruct (Hf a) as [o Ho]. exists o. intros w. now rewrite Hm, Ho.
  - exists (Raise e). intros w. now rewrite Hm.
Qed.

Lemma only_computes_if {A} (b : bool) (m1 m2 : M A) :
  only_computes m1 -> only_computes m2 -> only_computes (if b then m1 else m2).
Proof. now destruct b. Qed.

Lemma only_computes_validate_stock_symbol (symbol : string) :
  only_computes (validate_stock_symbol symbol).
Proof.
  apply only_computes_if; [apply only_computes_raise | apply only_computes_ret].
Qed.

Lemma only_computes_str_to_float (value : pyvalue) :
  only_computes (str_to_float value).
Proof.
  destruct value as [n|s]; cbn; [apply only_computes_ret|].
  destruct (float_of_str s);
    [apply only_computes_ret | apply only_computes_raise].
Qed.

Lemma only_computes_getitem {V} (d : dict V) (k : string) :
  only_computes (getitem d k).
Proof.
  unfold getitem.
  destruct (dict_get d k); [apply only_computes_ret | apply only_computes_raise].
Qed.

Lemma only_computes_mul_opt (a : option num) (b : num) :
  only_computes (mul_opt a b).
Proof.
  destruct a; [apply only_computes_lift | apply only_computes_raise].
Qed.

Lemma only_computes_dividend_yield (symbol : string) (price : pyvalue) :
  only_computes (calculate_dividend_yield symbol price).
Proof.
  unfold calculate_dividend_yield, truediv.
  repeat first
    [ apply only_computes_validate_stock_symbol
    | apply only_computes_str_to_float | apply only_computes_getitem
    | apply only_computes_mul_opt | apply only_computes_lift
    | apply only_computes_raise
    | apply only_computes_bind; [|intros ?] | apply only_computes_if ].
Qed.

Lemma only_computes_pe_ratio (symbol : string) (price : pyvalue) :
  only_computes (calculate_pe_ratio symbol price).
Proof.
  unfold calculate_pe_ratio, truediv.
  repeat first
    [ apply only_computes_validate_stock_symbol
    | apply only_computes_str_to_float | apply only_computes_dividend_yield
    | apply only_computes_lift | apply only_computes_raise
    | apply only_computes_bind; [|intros ?] | apply only_computes_if ].
Qed.

Lemma truediv_world (x y : num) (w : World) : snd (truediv x y w) = w.
Proof. reflexivity. Qed.

Lemma dividend_yield_world (symbol : string) (price : pyvalue) (w : World) :
  snd (calculate_dividend_yield symbol price w) = w.
Proof.
  destruct (only_computes_dividend_yield symbol price) as [o Ho].
  now rewrite Ho.
Qed.

Lemma pe_ratio_world (symbol : string) (price : pyvalue) (w : World) :
  snd (calculate_pe_ratio symbol price w) = w.
Proof.
  destruct (only_computes_pe_ratio symbol price) as [o Ho]. now rewrite Ho.
Qed.

(** The result of [str_to_float] does not depend on the world. *)
Lemma str_to_float_any (value : pyvalue) (w w' : World) :
  fst (str_to_float value w) = fst (str_to_float value w').
Proof.
  destruct (only_computes_str_to_float value) as [o Ho]. now rewrite !Ho.
Qed.

(** X10. [calculate_dividend_yield] and [calculate_pe_ratio] only compute:
    they leave the whole world (the trade store and the clock) as it was,
    and what they return or raise does not depend on the world they are
    called in. *)
Theorem ratios_are_pure (symbol : string) (price : pyvalue) (w w' : World) :
  snd (calculate_dividend_yield symbol price w) = w
  /\ snd (calculate_pe_ratio symbol price w) = w
  /\ fst (calculate_dividend_yield symbol price w)
     = fst (calculate_dividend_yield symbol price w')
  /\ fst (calculate_pe_ratio symbol price w)
     = fst (calculate_pe_ratio symbol price w').
Proof.
  split; [apply dividend_yield_world|]. split; [apply pe_ratio_world|].
  destruct (only_computes_dividend_yield symbol price) as [o Ho].
  destruct (only_computes_pe_ratio symbol price) as [o' Ho'].
  now rewrite !Ho, !Ho'.
Qed.

End Pure.

(** ** The clock and the order of the trades *)

Section Clock.
Context `{PyRuntime}.

Lemma reads_pure {A} (m : M A) : (forall w, snd (m w) = w) -> reads_on m.
Proof. intros Hm w. rewrite Hm. apply le_n. Qed.

Lemma reads_bind {A B} (m : M A) (f : A -> M B) :
  reads_on m -> (forall a, reads_on (f a)) -> reads_on (bind m f).
Proof.
  intros Hm Hf w. unfold bind. specialize (Hm w).
  destruct (m w) as [[a|e] w']; cbn in *; [|exact Hm].
  specialize (Hf a w'). lia.
Qed.

Lemma reads_foldM {A B} (f : B -> A -> M B) (l : list A) (b : B) :
  (forall b a, reads_on (f b a)) -> reads_on (foldM f l b).
Proof.
  intros Hf. revert b. induction l as [|a l IH]; intros b; cbn.
  - now apply reads_pure.
  - apply reads_bind; [apply Hf | exact IH].
Qed.

Lemma vws_price_clock (symbol : string) (w : World) :
  (clock_reads w <= clock_reads (snd (calculate_vws_price symbol w)))%nat.
Proof.
  destruct (dict_mem symbol exchange_data) eqn:Hm.
  - apply dict_mem_In in Hm. rewrite catalog_keys in Hm.
    rewrite (vws_eval symbol w Hm). cbn. lia.
  - unfold calculate_vws_price, bind.
    rewrite (validate_unknown symbol w Hm). apply le_n.
Qed.

Lemma gbce_clock : reads_on calculate_gbce.
Proof.
  unfold calculate_gbce.
  apply reads_bind; [now apply reads_pure | intros trs].
  apply reads_bind.
  { destruct (dict_truth trs); [|now apply reads_pure].
    apply reads_foldM. intros b a.
    apply reads_bind; [exact (vws_price_clock a) | intros v; now apply reads_pure]. }
  intros total. apply reads_bind; [now apply reads_pure | intros trs'].
  apply reads_bind; [apply reads_pure; apply truediv_world | intros e].
  apply reads_bind; [apply reads_pure; apply py_pow_world | intros g].
  destruct g; now apply reads_pure.
Qed.

(** No call takes a clock reading back. *)
Lemma exec_clock_reads (c : call) (w : World) :
  (clock_reads w <= clock_reads (exec c w))%nat.
Proof.
  destruct c as [s|v|o|s p|s p|s q p o|s|]; cbn [exec].
  - unfold validate_stock_symbol. destruct (negb _); apply le_n.
  - rewrite str_to_float_world. apply le_n.
  - unfold validate_order. destruct (_ && _); apply le_n.
  - rewrite dividend_yield_world. apply le_n.
  - rewrite pe_ratio_world. apply le_n.
  - destruct (record_trade s q p o w) as [[t|e] w'] eqn:E; cbn [snd].
    + apply record_trade_success in E. destruct E as (_ & -> & _). lia.
    + rewrite record_trade_eval in E.
      destruct (negb (dict_mem s exchange_data)); [injection E as _ <-; lia|].
      destruct (str_to_float q w) as [[qv|e0] w1]; [|injection E as _ <-; lia].
      destruct (str_to_float p w) as [[pv|e0] w2]; [|injection E as _ <-; lia].
      destruct (negb (o =? "Buy") && negb (o =? "Sell"));
        [injection E as _ <-; lia | discriminate].
  - apply vws_price_clock.
  - apply gbce_clock.
Qed.

Lemma StronglySorted_snoc {A} (R : A -> A -> Prop) (l : list A) (a : A) :
  StronglySorted R l -> Forall (fun x => R x a) l ->
  StronglySorted R (l ++ [a]).
Proof.
  induction 1 as [|x l Hl IH Hx]; intros Ha; cbn.
  - repeat constructor.
  - inversion Ha as [|? ? Hxa Hla]; subst. constructor; [now apply IH|].
    apply Forall_app. split; [exact Hx | now constructor].
Qed.

(** Every stored trade bears the timestamp of a reading already taken, and
    each list is in the order of its readings. *)
Lemma reachable_stamps (w : World) :
  monotone_clock ->
  reachable w ->
  forall s l,
    dict_get (trades w) s = Some l ->
    StronglySorted no_later l
    /\ Forall (fun t => exists k, (k < clock_reads w)%nat
                                  /\ timestamp t = to_timestamp (wall_clock k))
              l.
Proof.
  intros Hmono. induction 1 as [|c w Hw IH]; [discriminate|].
  intros s l Hg.
  pose proof (exec_clock_reads c w) as Hclk.
  assert (Hweak : forall l0,
             Forall (fun t => exists k, (k < clock_reads w)%nat
                                        /\ timestamp t
                                           = to_timestamp (wall_clock k)) l0 ->
             Forall (fun t => exists k, (k < clock_reads (exec c w))%nat
                                        /\ timestamp t
                                           = to_timestamp (wall_clock k)) l0).
  { intros l0. apply Forall_impl. intros t (k & Hk & Ht). exists k. split; [lia|exact Ht]. }
  destruct (exec_trades c w) as [Heq|(s0 & q & p & o & t & w' & -> & Hr & Hw')].
  - rewrite Heq in Hg. destruct (IH s l Hg) as [Hs Hf]. auto.
  - rewrite Hw' in *. clear Hw'.
    destruct (record_trade_success _ _ _ _ _ _ _ Hr) as (Hts & Hcr & Htr).
    pose proof (record_trade_effect s0 q p o w) as He. rewrite Hr in He.
    destruct He as (Hsame & Hother & _).
    destruct (String.eqb_spec s s0) as [->|Hne].
    + rewrite Hsame in Hg. injection Hg as <-.
      assert (Hold : StronglySorted no_later (trades_of (trades w) s0)
                     /\ Forall (fun t => exists k, (k < clock_reads w)%nat
                                                   /\ timestamp t
                                                      = to_timestamp (wall_clock k))
                               (trades_of (trades w) s0)).
      { unfold trades_of. destruct (dict_get (trades w) s0) as [l0|] eqn:E.
        - exact (IH s0 l0 E).
        - split; constructor. }
      destruct Hold as [Hs Hf]. split.
      * apply StronglySorted_snoc; [exact Hs|].
        revert Hf. apply Forall_impl. intros x (k & Hk & Hx).
        unfold no_later. rewrite Hx, Hts. unfold now_of. apply Hmono. lia.
      * apply Forall_app. split; [now apply Hweak|].
        constructor; [|constructor]. exists (clock_reads w).
        split; [lia | exact Hts].
    + rewrite (Hother s Hne) in Hg. destruct (IH s l Hg) as [Hs Hf]. auto.
Qed.

(** X4. With a clock that never runs backwards, in every reachable world
    each symbol's list of trades is in non-decreasing order of timestamp,
    and no stored trade is stamped later than the next clock reading. *)
Theorem trades_in_time_order (w : World) (symbol : string) (l : list Trade) :
  monotone_clock ->
  reachable w ->
  dict_get (trades w) symbol = Some l ->
  StronglySorted no_later l
  /\ Forall (fun t => (timestamp t <= now_of w)%Z) l.
Proof.
  intros Hmono Hw Hg.
  destruct (reachable_stamps w Hmono Hw symbol l Hg) as [Hs Hf].
  split; [exact Hs|]. revert Hf. apply Forall_impl.
  intros t (k & Hk & ->). unfold now_of. apply Hmono. lia.
Qed.

End Clock.

(** ** Failures *)

Section Failures.
Context `{PyRuntime}.

(** X5. [calculate_gbce] asks the price of the traded symbols in the order
    of their first trades and stops at the first one that fails: it raises
    that very exception (NoTradesInWindow when that symbol has no quantity
    in its window), whatever the symbols after it would give. *)
Theorem gbce_fails_with_first_failure (w w1 w2 : World) (ks1 ks2 : list string)
        (k : string) (vs : list num) (e : exn) :
  dict_keys (trades w) = ks1 ++ k :: ks2 ->
  vws_run w ks1 vs w1 ->
  calculate_vws_price k w1 = (Raise e, w2) ->
  calculate_gbce w = (Raise e, w2).
Proof.
  intros Hkeys Hrun Hk.
  unfold calculate_gbce. unfold bind at 1. cbn [get_trades].
  assert (Ht : dict_truth (trades w) = true).
  { destruct (trades w); [destruct ks1; discriminate | reflexivity]. }
  rewrite Ht, Hkeys. unfold bind at 1.
  now rewrite (gbce_loop_raise w w1 w2 ks1 ks2 k vs (PyInt 1) e Hrun
                 (or_introl eq_refl) Hk).
Qed.

Lemma str_to_float_raises (value : pyvalue) (w : World) (e : exn) :
  fst (str_to_float value w) = Raise e -> exists s, e = InvalidNumericFormat s.
Proof.
  destruct value as [x|s]; cbn; [discriminate|].
  destruct (float_of_str s); [discriminate | intros [= <-]; now exists s].
Qed.

Lemma catalog_get (symbol : string) :
  dict_mem symbol exchange_data = true ->
  exists stock, dict_get exchange_data symbol = Some stock.
Proof.
  rewrite dict_mem_get.
  destruct (dict_get exchange_data symbol) as [stock|]; [eauto | discriminate].
Qed.

(** X7. The methods fail only with the errors they raise on purpose, or
    with the OverflowError of an int too large for a float:
    [calculate_dividend_yield] with UnknownSymbol, InvalidNumericFormat or
    InvalidPrice; [calculate_pe_ratio] with one of these, DivisionByZero or
    OverflowError; [record_trade] with UnknownSymbol, InvalidNumericFormat or
    InvalidOrderSide; [calculate_vws_price] with UnknownSymbol,
    NoTradesInWindow or OverflowError.  None of them lets a
    ZeroDivisionError, a KeyError or a TypeError out: every division is
    guarded, every lookup is of a key that was checked, and [fixed_dividend]
    is set where it is used. *)
Theorem methods_raise_own_errors (symbol : string) (quantity price : pyvalue)
        (order : string) (w : World) :
  (forall e, fst (calculate_dividend_yield symbol price w) = Raise e ->
             e = UnknownSymbol \/ (exists s, e = InvalidNumericFormat s)
             \/ e = InvalidPrice)
  /\ (forall e, fst (calculate_pe_ratio symbol price w) = Raise e ->
                e = UnknownSymbol \/ (exists s, e = InvalidNumericFormat s)
                \/ e = InvalidPrice \/ e = DivisionByZero
                \/ e = OverflowError)
  /\ (forall e, fst (record_trade symbol quantity price order w) = Raise e ->
                e = UnknownSymbol \/ (exists s, e = InvalidNumericFormat s)
                \/ e = InvalidOrderSide)
  /\ (forall e, fst (calculate_vws_price symbol w) = Raise e ->
                e = UnknownSymbol \/ e = NoTradesInWindow
                \/ e = OverflowError).
Proof.
  destruct (dict_mem symbol exchange_data) eqn:Hm.
  2:{ pose proof (validate_unknown symbol w Hm) as Hv.
      unfold calculate_dividend_yield, calculate_pe_ratio, record_trade,
        calculate_vws_price, bind. rewrite Hv. cbn [fst].
      repeat split; intros e [= <-]; auto. }
  destruct (catalog_get symbol Hm) as [stock Hg].
  assert (Hdy : forall e, fst (calculate_dividend_yield symbol price w) = Raise e ->
                          e = UnknownSymbol
                          \/ (exists s, e = InvalidNumericFormat s)
                          \/ e = InvalidPrice).
  { intros e. pose proof (str_to_float_world price w) as Hw.
    destruct (str_to_float price w) as [[p|e0] w1] eqn:Hp; cbn in Hw; subst w1.
    - destruct (py_le0 p) eqn:Hle.
      + rewrite (dividend_yield_eval _ _ _ _ _ Hg Hp), Hle. intros [= <-]. auto.
      + destruct (dividend_yield_returns _ _ _ _ _ Hg Hp Hle)
          as (a & y & _ & _ & _ & -> & _).
        discriminate.
    - unfold calculate_dividend_yield, bind.
      rewrite (validate_known symbol w Hm), Hp. cbn [fst]. intros [= <-].
      right. left. apply (str_to_float_raises price w). now rewrite Hp. }
  split; [exact Hdy|]. split; [|split].
  - intros e. pose proof (str_to_float_world price w) as Hw.
    destruct (str_to_float price w) as [[p|e0] w1] eqn:Hp; cbn in Hw; subst w1.
    + rewrite (pe_ratio_eval _ _ _ _ _ Hg Hp). cbn [fst].
      destruct (fst (calculate_dividend_yield symbol price w)) as [y|e1] eqn:Hy.
      * destruct (y =? 0)%float eqn:Hy0; [intros [= <-]; tauto|].
        intros Hr. apply py_div_raises in Hr; [tauto | exact Hy0].
      * intros [= <-]. specialize (Hdy e1 eq_refl). tauto.
    + unfold calculate_pe_ratio, bind.
      rewrite (validate_known symbol w Hm), Hp. cbn [fst]. intros [= <-].
      right. left. apply (str_to_float_raises price w). now rewrite Hp.
  - intros e. rewrite record_trade_eval, Hm. cbn [negb].
    destruct (str_to_float quantity w) as [[q|e0] w1] eqn:Hq.
    + destruct (str_to_float price w) as [[p|e1] w2] eqn:Hp.
      * destruct (negb (order =? "Buy") && negb (order =? "Sell"));
          [intros [= <-]; auto | discriminate].
      * cbn [fst]. intros [= <-]. right. left.
        apply (str_to_float_raises price w). now rewrite Hp.
    + cbn [fst]. intros [= <-]. right. left.
      apply (str_to_float_raises quantity w). now rewrite Hq.
  - intros e. apply dict_mem_In in Hm. rewrite catalog_keys in Hm.
    rewrite (vws_eval symbol w Hm). cbn [fst].
    destruct (dict_get (trades w) symbol) as [l|]; [|discriminate].
    destruct (ofold vws_add _ _) as [[a q]|e0] eqn:Hl; cbn [obind fst snd].
    + destruct (py_eq0 q) eqn:Hq0; [intros [= <-]; auto|].
      destruct (py_div a q) as [r|e0] eqn:Hd; cbn [obind]; [discriminate|].
      intros [= <-]. right. right. exact (py_div_raises _ _ _ Hq0 Hd).
    + intros [= <-]. right. right. exact (vws_add_raises _ _ _ Hl).
Qed.

(** X8. On a catalog symbol and a price that coerces to [p],
    [calculate_pe_ratio] fails with InvalidPrice exactly when [p <= 0]: the
    check is the one [calculate_dividend_yield] makes, and its failure
    passes through unchanged. *)
Theorem pe_ratio_invalid_price (symbol : string) (price : pyvalue) (p : num)
        (stock : Stock) (w : World) :
  dict_get exchange_data symbol = Some stock ->
  str_to_float price w = (Return p, w) ->
  (calculate_pe_ratio symbol price w = (Raise InvalidPrice, w)
   <-> py_le0 p = true)
  /\ (calculate_pe_ratio symbol price w = (Raise InvalidPrice, w)
      <-> calculate_dividend_yield symbol price w = (Raise InvalidPrice, w)).
Proof.
  intros Hg Hp. rewrite (pe_ratio_eval _ _ _ _ _ Hg Hp).
  destruct (py_le0 p) eqn:Hle.
  - rewrite (dividend_yield_eval _ _ _ _ _ Hg Hp), Hle. cbn [fst]. tauto.
  - destruct (dividend_yield_returns _ _ _ _ _ Hg Hp Hle)
      as (a & y & _ & _ & _ & -> & _).
    cbn [fst].
    assert (Hno : (if (y =? 0)%float then Raise DivisionByZero
                   else py_div p (PyFloat y)) <> Raise InvalidPrice).
    { destruct (y =? 0)%float eqn:Hy0; [discriminate|]. intros Hr.
      apply py_div_raises in Hr; [discriminate | exact Hy0]. }
    split; (split; [|discriminate]); intros [= Hr]; now elim Hno.
Qed.

End Failures.

(** ** Signs *)

Section Signs.
Context `{PyRuntime}.

(** X6. On a catalog symbol and a positive price, neither the dividend
    yield nor the P/E ratio that is returned is negative. *)
Theorem ratios_not_negative (symbol : string) (price : pyvalue) (p : num)
        (stock : Stock) (w : World) :
  dict_get exchange_data symbol = Some stock ->
  str_to_float price w = (Return p, w) ->
  py_gt0 p = true ->
  (exists y, calculate_dividend_yield symbol price w = (Return y, w)
             /\ not_negative y)
  /\ (forall r, fst (calculate_pe_ratio symbol price w) = Return r ->
                not_negative r).
Proof.
  intros Hg Hp Hpos.
  destruct (dividend_yield_returns _ _ _ _ _ Hg Hp (py_gt0_le0 _ Hpos))
    as (a & y & Ha & _ & Hdiv & Hy & _).
  assert (Hsy : sign_clear (Prim2SF y)).
  { apply (py_div_not_negative a p y); [lia | exact Hpos | exact Hdiv]. }
  split.
  - exists y. split; [exact Hy | now apply sign_clear_not_negative].
  - intros r. rewrite (pe_ratio_eval _ _ _ _ _ Hg Hp), Hy. cbn [fst].
    destruct (y =? 0)%float eqn:Hy0; [discriminate|].
    destruct (as_float p) as [x|e] eqn:Hx.
    + rewrite (py_div_by_float p x y Hx Hy0). intros [= <-].
      apply sign_clear_not_negative, div_sign_clear; [|exact Hsy].
      exact (as_float_sign_clear p x Hpos Hx).
    + destruct p as [z|x0]; cbn [py_div as_float] in *; [|discriminate].
      rewrite Hx. discriminate.
Qed.

End Signs.

(** ** The window *)

Section Window.
Context `{PyRuntime}.

(** X9. What [calculate_vws_price] returns or raises for a symbol depends
    only on whether the symbol is a key of the store and on the trades of
    that symbol inside the window: trades of other symbols and trades older
    than the start of the window make no difference. *)
Theorem vws_price_local (symbol : string) (w1 w2 : World) :
  dict_mem symbol (trades w1) = dict_mem symbol (trades w2) ->
  recent_trades (window_start w1) (trades_of (trades w1) symbol)
  = recent_trades (window_start w2) (trades_of (trades w2) symbol) ->
  fst (calculate_vws_price symbol w1) = fst (calculate_vws_price symbol w2).
Proof.
  intros Hmem Hrecent.
  destruct (dict_mem symbol exchange_data) eqn:Hm.
  - apply dict_mem_In in Hm. rewrite catalog_keys in Hm.
    rewrite !(vws_eval symbol _ Hm). cbn [fst].
    rewrite !dict_mem_get in Hmem. unfold trades_of in Hrecent.
    destruct (dict_get (trades w1) symbol) as [l1|],
             (dict_get (trades w2) symbol) as [l2|];
      try discriminate; [|reflexivity].
    now rewrite Hrecent.
  - unfold calculate_vws_price, bind.
    now rewrite !(validate_unknown symbol _ Hm).
Qed.

(** X11. After the first trade of a symbol is recorded, the next
    [calculate_vws_price] of that symbol counts it exactly when the start of
    the window, the timestamp of the second clock reading moved five minutes
    back, is not later than the timestamp of the trade.  It then returns
    [(0 + p * q) / (0 + q)] as Python computes it, provided these are
    computed and the quantity is not 0; otherwise the trade is outside the
    window and the call fails with NoTradesInWindow.  When moving the second
    reading five minutes back moves its timestamp five minutes back, the
    trade is counted exactly when the two timestamps are at most five
    minutes apart, five minutes exactly included. *)
Theorem first_trade_then_price (symbol : string) (qty prc : pyvalue)
        (side : string) (q p : num) (w w' : World) (t : Trade) :
  dict_get (trades w) symbol = None ->
  str_to_float qty w = (Return q, w) ->
  str_to_float prc w = (Return p, w) ->
  record_trade symbol qty prc side w = (Return t, w') ->
  ((window_start w' <= now_of w)%Z ->
   forall A Q r,
     (x <~ py_mul p q ;; py_add (PyInt 0) x) = Return A ->
     py_add (PyInt 0) q = Return Q ->
     py_eq0 Q = false ->
     py_div A Q = Return r ->
     calculate_vws_price symbol w' = (Return (PyFloat r), tick w'))
  /\ ((window_start w' > now_of w)%Z ->
      calculate_vws_price symbol w' = (Raise NoTradesInWindow, tick w'))
  /\ (window_start w' = (now_of w' - five_minutes)%Z ->
      ((window_start w' <= now_of w)%Z
       <-> (now_of w' - now_of w <= five_minutes)%Z)).
Proof.
  intros Hnone Hq Hp Hr.
  assert (Hin : In symbol ["TEA"; "POP"; "ALE"; "GIN"; "JOE"]).
  { rewrite <- catalog_keys. exact (record_trade_symbol _ _ _ _ _ _ _ Hr). }
  revert Hr. rewrite record_trade_eval.
  rewrite <- catalog_keys in Hin. apply dict_mem_In in Hin.
  rewrite Hin, Hq, Hp. cbn [negb].
  destruct (negb (side =? "Buy") && negb (side =? "Sell")); [discriminate|].
  unfold trades_of. rewrite Hnone. cbn [app]. intros [= <- <-].
  apply dict_mem_In in Hin. rewrite catalog_keys in Hin.
  rewrite (vws_eval symbol _ Hin). cbn [trades].
  rewrite dict_get_set_same.
  unfold recent_trades. cbn [filter]. unfold in_window. cbn [timestamp].
  split; [|split].
  - intros Hclk A Q r HA HQ HQ0 Hdiv.
    match goal with
    | |- context [(?a >=? ?b)%Z] => destruct (Z.geb_spec a b) as [_|Hlt]
    end; [|lia].
    cbn [ofold]. unfold vws_add. cbn [fst snd quantity traded_price].
    revert HA. destruct (py_mul p q) as [x|e]; cbn [obind]; [|discriminate].
    intros ->. cbn [obind]. rewrite HQ. cbn [obind fst snd].
    now rewrite HQ0, Hdiv.
  - intros Hclk.
    match goal with
    | |- context [(?a >=? ?b)%Z] => destruct (Z.geb_spec a b) as [Hge|_]
    end; [lia|].
    reflexivity.
  - intros ->. split; lia.
Qed.

End Window.

(** ** The properties at concrete inputs *)

#[local] Existing Instance demo_runtime.

Local Open Scope float_scope.

(** C7 at "XYZ" and at "POP". *)
Lemma unknown_symbol_rejected_witness :
  (validate_stock_symbol "XYZ" init = (Raise UnknownSymbol, init)
   /\ calculate_vws_price "XYZ" init = (Raise UnknownSymbol, init)
   /\ record_trade "XYZ" (PyNum (PyInt 10)) (PyNum (PyInt 100)) "Buy" init
      = (Raise UnknownSymbol, init))
  /\ validate_stock_symbol "POP" init = (Return "POP", init).
Proof.
  destruct (unknown_symbol_rejected "XYZ" init) as [Hout _].
  destruct (unknown_symbol_rejected "POP" init) as [_ Hin].
  split.
  - destruct Hout as (Hv & _ & _ & Hr & Hp).
    + cbn. intros [E|[E|[E|[E|[E|[]]]]]]; discriminate E.
    + split; [exact Hv|]. split; [exact Hp | apply Hr].
  - apply Hin. cbn. tauto.
Defined.

(** C3 at POP with the price "2" (a float) and the int price 32, at GIN
    with the int price 4, and at a zero price. *)
Lemma dividend_yield_spec_witness :
  calculate_dividend_yield "POP" (PyStr "2") init = (Return 4, init)
  /\ calculate_dividend_yield "POP" (PyNum (PyInt 32)) init
     = (Return 0.25, init)
  /\ calculate_dividend_yield "GIN" (PyNum (PyInt 4)) init = (Return 50, init)
  /\ fst (calculate_dividend_yield "POP" (PyNum (PyInt 0)) init)
     = Raise InvalidPrice.
Proof.
  split; [|split; [|split]].
  - assert (Hp : str_to_float (PyStr "2") init = (Return (PyFloat 2), init))
      by reflexivity.
    destruct (dividend_yield_spec "POP" (PyStr "2") (PyFloat 2)
                (mkStock "Common" (PyInt 8) None (PyInt 100)) init eq_refl Hp)
      as [_ Hpos].
    destruct (Hpos eq_refl) as (_ & Hcommon & _).
    destruct (Hcommon eq_refl) as (y & Hdiv & Hy).
    assert (Hd : py_div (PyInt 8) (PyFloat 2) = Return 4) by reflexivity.
    cbn [last_dividend] in Hdiv. rewrite Hd in Hdiv.
    injection Hdiv as <-. exact Hy.
  - destruct (dividend_yield_spec "POP" (PyNum (PyInt 32)) (PyInt 32)
                (mkStock "Common" (PyInt 8) None (PyInt 100)) init
                eq_refl eq_refl)
      as [_ Hpos].
    destruct (Hpos eq_refl) as (_ & Hcommon & _).
    destruct (Hcommon eq_refl) as (y & Hdiv & Hy).
    assert (Hd : py_div (PyInt 8) (PyInt 32) = Return 0.25) by reflexivity.
    cbn [last_dividend] in Hdiv. rewrite Hd in Hdiv.
    injection Hdiv as <-. exact Hy.
  - destruct (dividend_yield_spec "GIN" (PyNum (PyInt 4)) (PyInt 4)
                (mkStock "Preferred" (PyInt 8) (Some (PyInt 2)) (PyInt 100))
                init eq_refl eq_refl)
      as [_ Hpos].
    destruct (Hpos eq_refl) as (_ & _ & Hpref).
    destruct (Hpref eq_refl) as (fd & x & y & Hfd & Hm & Hdiv & Hy).
    injection Hfd as <-. cbn in Hm. injection Hm as <-.
    assert (Hd : py_div (PyInt 200) (PyInt 4) = Return 50) by reflexivity.
    rewrite Hd in Hdiv. injection Hdiv as <-. exact Hy.
  - destruct (dividend_yield_spec "POP" (PyNum (PyInt 0)) (PyInt 0)
                (mkStock "Common" (PyInt 8) None (PyInt 100)) init
                eq_refl eq_refl)
      as [Hiff _].
    apply Hiff. reflexivity.
Defined.

(** C4 at TEA and at POP, both at the int price 16. *)
Lemma pe_ratio_spec_witness :
  calculate_pe_ratio "TEA" (PyNum (PyInt 16)) init
  = (Raise DivisionByZero, init)
  /\ calculate_pe_ratio "POP" (PyNum (PyInt 16)) init = (Return 32, init).
Proof.
  split.
  - destruct (pe_ratio_spec "TEA" (PyNum (PyInt 16)) (PyInt 16)
                (mkStock "Common" (PyInt 0) None (PyInt 100))
                init eq_refl eq_refl eq_refl) as (y & _ & _ & _ & Htea).
    exact (Htea eq_refl).
  - destruct (pe_ratio_spec "POP" (PyNum (PyInt 16)) (PyInt 16)
                (mkStock "Common" (PyInt 8) None (PyInt 100))
                init eq_refl eq_refl eq_refl) as (y & Hy & _ & Hret & _).
    assert (Hd : calculate_dividend_yield "POP" (PyNum (PyInt 16)) init
                 = (Return 0.5, init)) by reflexivity.
    rewrite Hd in Hy. injection Hy as <-.
    exact (Hret eq_refl 16 eq_refl).
Defined.

(** C4 as first stated fails at POP and the int price [2^1024]: the price
    is positive and the yield, [8 / 2^1024], is returned and is not 0 (it is
    [2^-1021], about 4.45e-308), but
    [price / yield] converts the price to a float, which no float holds, and
    [calculate_pe_ratio] ends with OverflowError instead of returning the
    quotient. *)
Lemma pe_ratio_huge_price_overflows :
  py_gt0 (PyInt (2 ^ 1024)) = true
  /\ calculate_dividend_yield "POP" (PyNum (PyInt (2 ^ 1024))) init
     = (Return 0x1p-1021, init)
  /\ (0x1p-1021 =? 0) = false
  /\ calculate_pe_ratio "POP" (PyNum (PyInt (2 ^ 1024))) init
     = (Raise OverflowError, init)
  /\ (forall x, fst (calculate_pe_ratio "POP" (PyNum (PyInt (2 ^ 1024))) init)
                <> Return x)
  /\ OverflowError <> DivisionByZero.
Proof.
  assert (Hpe : calculate_pe_ratio "POP" (PyNum (PyInt (2 ^ 1024))) init
                = (Raise OverflowError, init)) by (vm_compute; reflexivity).
  split; [reflexivity|]. split; [vm_compute; reflexivity|].
  split; [reflexivity|]. split; [exact Hpe|]. rewrite Hpe.
  split; [intros x|]; discriminate.
Qed.





(** C6 at the initial world. *)
Lemma gbce_no_trades_witness :
  calculate_gbce init = (Raise ZeroDivisionError, init).
Proof. exact (proj1 (gbce_no_trades init eq_refl)). Defined.



(** C10 at [demo_pop], reached by one [record_trade]. *)
Lemma traded_keys_nonempty_witness :
  (forall k l, dict_get (trades demo_pop) k = Some l -> l <> [])
  /\ (forall k, In k (dict_keys (trades demo_pop))
                <-> exists t, In t (trades_of (trades demo_pop) k)).
Proof.
  exact (traded_keys_nonempty demo_pop
           (reachable_step
              (CallRecordTrade "POP" (PyNum (PyInt 10)) (PyNum (PyInt 100)) "Buy")
              init reachable_init)).
Defined.

(** C2. At [demo_negative] POP and TEA are traded and both volume-weighted
    prices are returned, 100.0 and -4.0; their product is -400.0, the power
    [(-400.0) ** 0.5] is a complex number, [round] does not take it, and
    [calculate_gbce] ends with TypeError: it returns no number, where the
    claim has it return the rounded root of the product; at
    [demo_pop_tea], where the prices are 100.0 and 25.0, it returns 50.0. *)
Theorem gbce_negative_product_raises :
  trades demo_negative <> []
  /\ vws_run demo_negative (dict_keys (trades demo_negative))
             [PyFloat 100; PyFloat (-4)] (tick (tick demo_negative))
  /\ product [PyFloat 100; PyFloat (-4)] = Return (PyFloat (-400))
  /\ py_pow (PyFloat (-400)) (root_exponent 2) (tick (tick demo_negative))
     = (Return PyComplex, tick (tick demo_negative))
  /\ calculate_gbce demo_negative = (Raise TypeError, tick (tick demo_negative))
  /\ (forall x, fst (calculate_gbce demo_negative) <> Return x)
  /\ calculate_gbce demo_pop_tea = (Return 50, tick (tick demo_pop_tea)).
Proof.
  split; [discriminate|]. split; [|repeat split].
  - apply (vws_run_cons demo_negative "POP" ["TEA"] (PyFloat 100) [PyFloat (-4)]
             (tick demo_negative)); [reflexivity|].
    apply (vws_run_cons _ "TEA" [] (PyFloat (-4)) []
             (tick (tick demo_negative)));
      [reflexivity | apply vws_run_nil].
  - intros x. discriminate.
Qed.

(** C9 at the first and the second trade of POP. *)
Lemma record_trade_frame_witness :
  trades demo_pop
  = [("POP", [mkTrade (demo_clock 0) "Buy" (PyInt 10) (PyInt 100)])]
  /\ trades (snd (calculate_gbce demo_pop)) = trades demo_pop.
Proof.
  split; [reflexivity|].
  destruct (record_trade_frame "POP" (PyNum (PyInt 10)) (PyNum (PyInt 100))
              "Buy" demo_pop)
    as (_ & _ & _ & _ & _ & _ & _ & Hg).
  exact (Hg demo_pop).
Defined.

(** X1 at an order that is neither "Buy" nor "Sell", and at a sale whose
    quantity is the string "3.5". *)
Lemma record_trade_outcome_witness :
  record_trade "POP" (PyNum (PyInt 10)) (PyNum (PyInt 100)) "Hold" init
  = (Raise InvalidOrderSide, init)
  /\ record_trade "POP" (PyStr "3.5") (PyNum (PyInt 100)) "Sell" init
     = (Return (mkTrade (demo_clock 0) "Sell" (PyFloat 3.5) (PyInt 100)),
        mkWorld [("POP"%string,
                  [mkTrade (demo_clock 0) "Sell" (PyFloat 3.5) (PyInt 100)])] 1).
Proof.
  assert (Hin : In "POP"%string ["TEA"; "POP"; "ALE"; "GIN"; "JOE"]%string)
    by (cbn; tauto).
  split.
  - destruct (record_trade_outcome "POP" (PyNum (PyInt 10)) (PyNum (PyInt 100))
                "Hold" init)
      as [_ Hok].
    destruct (Hok Hin) as [_ Hq]. destruct (Hq (PyInt 10) eq_refl) as [_ Hp].
    destruct (Hp (PyInt 100) eq_refl) as [Hbad _]. apply Hbad; discriminate.
  - destruct (record_trade_outcome "POP" (PyStr "3.5") (PyNum (PyInt 100))
                "Sell" init)
      as [_ Hok].
    destruct (Hok Hin) as [_ Hq]. destruct (Hq (PyFloat 3.5) eq_refl) as [_ Hp].
    destruct (Hp (PyInt 100) eq_refl) as [_ Hgood]. apply Hgood. now right.
Defined.

Lemma demo_pop_tea_reachable : reachable demo_pop_tea.
Proof.
  exact (reachable_step
           (CallRecordTrade "TEA" (PyNum (PyInt 4)) (PyNum (PyInt 25)) "Sell") _
           (reachable_step
              (CallRecordTrade "POP" (PyNum (PyInt 10)) (PyNum (PyInt 100)) "Buy")
              init reachable_init)).
Defined.

(** X3 at [demo_pop_tea]. *)
Lemma reachable_keys_witness :
  NoDup (dict_keys (trades demo_pop_tea))
  /\ (forall k, In k (dict_keys (trades demo_pop_tea)) ->
                In k ["TEA"; "POP"; "ALE"; "GIN"; "JOE"]%string)
  /\ (List.length (dict_keys (trades demo_pop_tea)) <= 5)%nat.
Proof. exact (reachable_keys demo_pop_tea demo_pop_tea_reachable). Defined.

Lemma demo_clock_monotone : monotone_clock.
Proof.
  intros i j Hij. change (demo_clock i <= demo_clock j)%Z.
  unfold demo_clock. lia.
Qed.

(** X4 at the list of TEA in [demo_pop_tea]. *)
Lemma trades_in_time_order_witness :
  StronglySorted no_later [mkTrade (demo_clock 1) "Sell" (PyInt 4) (PyInt 25)]
  /\ Forall (fun t => (timestamp t <= now_of demo_pop_tea)%Z)
            [mkTrade (demo_clock 1) "Sell" (PyInt 4) (PyInt 25)].
Proof.
  exact (trades_in_time_order demo_pop_tea "TEA" _ demo_clock_monotone
           demo_pop_tea_reachable eq_refl).
Defined.

(** X5 at [demo_zero_tea]: the price of POP is returned, that of TEA is
    not, and the index fails as the price of TEA does. *)
Lemma gbce_fails_with_first_failure_witness :
  calculate_gbce demo_zero_tea
  = (Raise NoTradesInWindow, tick (tick demo_zero_tea)).
Proof.
  apply (gbce_fails_with_first_failure demo_zero_tea (tick demo_zero_tea)
           (tick (tick demo_zero_tea)) ["POP"%string] [] "TEA" [PyFloat 100]
           NoTradesInWindow); [reflexivity | | reflexivity].
  apply (vws_run_cons demo_zero_tea "POP" [] (PyFloat 100) []
           (tick demo_zero_tea));
    [reflexivity | apply vws_run_nil].
Defined.

(** X6 at POP and the int price 10. *)
Lemma ratios_not_negative_witness :
  (exists y, calculate_dividend_yield "POP" (PyNum (PyInt 10)) init
             = (Return y, init)
             /\ not_negative y)
  /\ (forall r, fst (calculate_pe_ratio "POP" (PyNum (PyInt 10)) init)
                = Return r ->
                not_negative r).
Proof.
  exact (ratios_not_negative "POP" (PyNum (PyInt 10)) (PyInt 10)
           (mkStock "Common" (PyInt 8) None (PyInt 100))
           init eq_refl eq_refl eq_refl).
Defined.

(** X8 at POP and the price -1. *)
Lemma pe_ratio_invalid_price_witness :
  calculate_pe_ratio "POP" (PyNum (PyInt (-1))) init = (Raise InvalidPrice, init).
Proof.
  destruct (pe_ratio_invalid_price "POP" (PyNum (PyInt (-1))) (PyInt (-1))
              (mkStock "Common" (PyInt 8) None (PyInt 100)) init
              eq_refl eq_refl)
    as [[_ Hle] _].
  apply Hle. reflexivity.
Defined.

(** X9 at POP, before and after a trade of TEA is recorded. *)
Lemma vws_price_local_witness :
  fst (calculate_vws_price "POP" demo_pop)
  = fst (calculate_vws_price "POP" demo_pop_tea).
Proof. exact (vws_price_local "POP" demo_pop demo_pop_tea eq_refl eq_refl). Defined.

(** X11 at the first trade of POP: one second later it is priced. *)
Lemma first_trade_then_price_witness :
  calculate_vws_price "POP" demo_pop = (Return (PyFloat 100), tick demo_pop).
Proof.
  assert (Hr : record_trade "POP" (PyNum (PyInt 10)) (PyNum (PyInt 100)) "Buy"
                 init
               = (Return (mkTrade (demo_clock 0) "Buy" (PyInt 10) (PyInt 100)),
                  demo_pop))
    by reflexivity.
  destruct (first_trade_then_price "POP" (PyNum (PyInt 10)) (PyNum (PyInt 100))
              "Buy" (PyInt 10) (PyInt 100)
              init demo_pop (mkTrade (demo_clock 0) "Buy" (PyInt 10) (PyInt 100))
              eq_refl eq_refl eq_refl Hr) as [Hin _].
  apply (Hin ltac:(vm_compute; discriminate) (PyInt 1000) (PyInt 10) 100);
    reflexivity.
Defined.
